(** * The strategy generation pipeline of [services/strategy/generate.py]

    A shallow embedding of [StrategyGenerator] (generation with fallback,
    validation, persistence) and of the batch loop of [main], followed by the
    properties its specification states about them.

    Conventions of the embedding.
    - A Python [str] is a Rocq [string]; a character stands for the code point
      of the same number (0 to 255).
    - The file system is a finite map from path strings to file contents.
    - What the outside world decides (the generation service, the clock, the
      [pylint] subprocess, whether the storage accepts a write) is read from an
      environment [Env], indexed by the instant at which the call is made, so
      that two calls with the same arguments may be answered differently.
    - A Python computation is a function from the world to a result (a value
      or a raised exception) and the world it leaves behind.
    - Writing a file, removing one and making a directory can fail: the
      storage decides about a write, the disk [Disk] about a removal and about
      a directory. Testing for a file cannot fail. The functions of the
      source that remove a file are given on any disk, with [_on] after
      their name; the name of the source alone stands for the function on a
      disk that refuses nothing.
    - Paths are joined and printed as [pathlib.PurePosixPath] does it.
    - The lines printed besides the outcome of each prompt are left out. *)

From Stdlib Require Import ZArith Ascii String List Lia DecimalString.
From Stdlib Require Import DecimalFacts DecimalNat.
From stdpp Require Import base gmap strings list fin_maps.

Local Open Scope string_scope.
Local Open Scope Z_scope.

(** ** Python strings *)

Module PyStr.

(** The double quote, kept out of string literals. *)
Definition dq : string := String (ascii_of_nat 34) "".

(** ["\n"] *)
Definition nl : string := String (ascii_of_nat 10) "".

(** [s.startswith(p)] *)
Definition startswith (s p : string) : bool := String.prefix p s.

(** [sub in s] *)
Fixpoint contains (sub s : string) : bool :=
  String.prefix sub s ||
  match s with
  | EmptyString => false
  | String _ s' => contains sub s'
  end.

(** [str.isspace] on one character: the white space code points below 256. *)
Definition is_space (c : ascii) : bool :=
  let n := nat_of_ascii c in
  ((9 <=? n) && (n <=? 13) || (28 <=? n) && (n <=? 32)
   || (n =? 133) || (n =? 160))%nat.

(** [s.lstrip()] *)
Fixpoint lstrip (s : string) : string :=
  match s with
  | EmptyString => EmptyString
  | String c s' => if is_space c then lstrip s' else s
  end.

(** [s.rstrip()] *)
Fixpoint rstrip (s : string) : string :=
  match s with
  | EmptyString => EmptyString
  | String c s' =>
      match rstrip s' with
      | EmptyString => if is_space c then EmptyString else String c EmptyString
      | r => String c r
      end
  end.

(** [s.strip()] *)
Definition strip (s : string) : string := rstrip (lstrip s).

(** [s.split(sep)] for a non-empty [sep], as the first part and the list of
    the parts after it. [skip] counts the characters of a separator just
    matched that are still to be passed over. *)
Fixpoint split_from (sep : string) (skip : nat) (s : string)
  : string * list string :=
  match s with
  | EmptyString => (EmptyString, [])
  | String c s' =>
      match skip with
      | S k => split_from sep k s'
      | O =>
          if String.prefix sep s
          then let '(p, ps) := split_from sep (String.length sep - 1) s' in
               (EmptyString, p :: ps)
          else let '(p, ps) := split_from sep O s' in
               (String c p, ps)
      end
  end.

Definition split (s sep : string) : list string :=
  let '(p, ps) := split_from sep O s in p :: ps.

(** [sep.join(parts)] *)
Fixpoint join (sep : string) (parts : list string) : string :=
  match parts with
  | [] => EmptyString
  | [p] => p
  | p :: ps => p +:+ sep +:+ join sep ps
  end.

(** [str(n)] for a non-negative integer. *)
Definition of_nat (n : nat) : string := NilZero.string_of_uint (Nat.to_uint n).

End PyStr.

Import PyStr.

(** ** Exceptions, the world, and computations *)

(** The exception classes the pipeline can meet. All of them derive from
    [Exception], so an [except Exception] clause catches every one. *)
Inductive PyExc : Type :=
| OSError
| FileNotFoundError
| TimeoutExpired
| IndexError
| AttributeError
| APIError (msg : string).

Inductive Result (A : Type) : Type :=
| Returns (a : A)
| Raises (e : PyExc).
Arguments Returns {A} a.
Arguments Raises {A} e.

(** What a call of [client.messages.create] sends. *)
Record Request : Type := mkRequest {
  model : string;
  max_tokens : Z;
  messages : list (string * string);   (* role, content *)
  system : string
}.

(** One block of [message.content]; only a text block has a [text]. *)
Inductive ContentBlock : Type :=
| TextBlock (text : string)
| OtherBlock.

(** How the generation service answers a request. *)
Inductive Reply : Type :=
| ServiceError (e : PyExc)
| Message (content : list ContentBlock).

(** The configured client: its answer to a request issued at an instant. *)
Definition Client : Type := nat -> Request -> Reply.

(** How the [pylint] subprocess ends. *)
Inductive Lint : Type :=
| ToolMissing               (* the executable is not installed *)
| ToolTimeout               (* no answer within the ten seconds *)
| ToolExit (returncode : Z).

(** How [Path.write_text] ends. *)
Inductive WriteResult : Type :=
| Written                   (* the file now holds the text *)
| Refused                   (* it raised before touching the file *)
| Broken (partial : string). (* it raised and left the file with [partial] *)

Record Env : Type := mkEnv {
  datetime_now : nat -> string;                  (* [datetime.now().isoformat()] *)
  pylint : nat -> option string -> Lint;         (* by instant and content of the file *)
  storage : nat -> string -> string -> WriteResult  (* by instant, path, text *)
}.

(** What the disk decides about the removal of a file and about the making
    of a directory, by instant and path: [None] when the call succeeds, the
    exception when it raises (a removal that raises leaves the file). *)
Record Disk : Type := mkDisk {
  remove_fails : nat -> string -> option PyExc;
  mkdir_fails : nat -> string -> option PyExc
}.

(** A disk that refuses nothing. *)
Definition sound : Disk :=
  {| remove_fails := fun _ _ => None; mkdir_fails := fun _ _ => None |}.

(** What [main] reports about one prompt: the two lines printed after a
    save (path and score), or the lines printed after a failed validation
    (one per error). *)
Inductive Outcome : Type :=
| Saved (path : string) (score : Z)
| Rejected (errors : list string).

Record World : Type := mkWorld {
  files : gmap string string;
  time : nat;
  reports : list Outcome
}.

Definition tick (w : World) : World :=
  {| files := files w; time := S (time w); reports := reports w |}.

Definition set_files (f : gmap string string) (w : World) : World :=
  {| files := f; time := time w; reports := reports w |}.

(** A computation: from the world to a result and the world left behind. *)
Definition Py (A : Type) : Type := World -> Result A * World.

Definition ret {A} (a : A) : Py A := fun w => (Returns a, w).

Definition raise {A} (e : PyExc) : Py A := fun w => (Raises e, w).

Definition bind {A B} (m : Py A) (k : A -> Py B) : Py B :=
  fun w =>
    match m w with
    | (Returns a, w') => k a w'
    | (Raises e, w') => (Raises e, w')
    end.

Notation "x <~ m ; k" := (bind m (fun x => k))
  (at level 20, m at level 100, k at level 200, only parsing).
Notation "m ;; k" := (bind m (fun _ => k))
  (at level 100, k at level 200, right associativity, only parsing).

(** [try: body except Exception: handler] *)
Definition try_except {A} (body : Py A) (handler : PyExc -> Py A) : Py A :=
  fun w =>
    match body w with
    | (Returns a, w') => (Returns a, w')
    | (Raises e, w') => handler e w'
    end.

(** [try: body finally: cleanup]: the cleanup runs on both exits, and an
    exception it raises replaces the outcome of the body. *)
Definition try_finally {A} (body : Py A) (cleanup : Py unit) : Py A :=
  fun w =>
    let '(r, w') := body w in
    match cleanup w' with
    | (Returns _, w'') => (r, w'')
    | (Raises e, w'') => (Raises e, w'')
    end.

(** [l[i]] *)
Definition index {A} (l : list A) (i : nat) : Py A :=
  match l !! i with
  | Some a => ret a
  | None => raise IndexError
  end.

(** ** The operating system *)

Section System.

Variable env : Env.

(** [datetime.now().isoformat()] *)
Definition now_isoformat : Py string :=
  fun w => (Returns (datetime_now env (time w)), tick w).

(** [path.write_text(text)] *)
Definition write_text (path text : string) : Py unit :=
  fun w =>
    match storage env (time w) path text with
    | Written => (Returns tt, tick (set_files (<[path := text]> (files w)) w))
    | Refused => (Raises OSError, tick w)
    | Broken partial =>
        (Raises OSError, tick (set_files (<[path := partial]> (files w)) w))
    end.

(** [path.exists()] *)
Definition path_exists (path : string) : Py bool :=
  fun w => (Returns (bool_decide (is_Some (files w !! path))), w).

(** [path.unlink()]: removing a file that is not there raises, and so does
    a removal the disk refuses. *)
Definition unlink (disk : Disk) (path : string) : Py unit :=
  fun w =>
    match files w !! path with
    | Some _ =>
        match remove_fails disk (time w) path with
        | None => (Returns tt, set_files (delete path (files w)) w)
        | Some e => (Raises e, w)
        end
    | None => (Raises FileNotFoundError, w)
    end.

(** [path.mkdir(exist_ok=True)] *)
Definition mkdir (disk : Disk) (path : string) : Py unit :=
  fun w =>
    match mkdir_fails disk (time w) path with
    | None => (Returns tt, tick w)
    | Some e => (Raises e, tick w)
    end.

(** [subprocess.run(["pylint", path, "--score=yes"], capture_output=True,
    text=True, timeout=10).returncode] *)
Definition run_pylint (path : string) : Py Z :=
  fun w =>
    match pylint env (time w) (files w !! path) with
    | ToolMissing => (Raises FileNotFoundError, tick w)
    | ToolTimeout => (Raises TimeoutExpired, tick w)
    | ToolExit returncode => (Returns returncode, tick w)
    end.

(** [client.messages.create(...)] *)
Definition messages_create (client : Client) (req : Request)
  : Py (list ContentBlock) :=
  fun w =>
    match client (time w) req with
    | ServiceError e => (Raises e, tick w)
    | Message content => (Returns content, tick w)
    end.

End System.

(** [block.text] *)
Definition block_text (b : ContentBlock) : Py string :=
  match b with
  | TextBlock t => ret t
  | OtherBlock => raise AttributeError
  end.

(** ** Paths, as [pathlib.PurePosixPath] parses and prints them *)

Module PosixPath.

Definition is_slash (c : ascii) : bool := Ascii.eqb c "/"%char.

(** The root of a path text: exactly two leading slashes are kept, any
    other number of them is one slash, none is no root. *)
Definition root_of (s : string) : string :=
  match s with
  | String a r1 =>
      if is_slash a then
        match r1 with
        | String b r2 =>
            if is_slash b then
              match r2 with
              | String c _ => if is_slash c then "/" else "//"
              | EmptyString => "//"
              end
            else "/"
        | EmptyString => "/"
        end
      else ""
  | EmptyString => ""
  end.

(** A component counts unless it is empty or a single dot. *)
Definition counts (part : string) : bool :=
  negb (String.eqb part "") && negb (String.eqb part ".").

(** The components of a path text. *)
Definition parts_of (s : string) : list string :=
  List.filter counts (split s "/").

(** A parsed path: its root and its components. *)
Record t : Type := mk { root : string; parts : list string }.

(** [PurePosixPath(s)] *)
Definition parse (s : string) : t :=
  {| root := root_of s; parts := parts_of s |}.

(** [p / s]: a rooted [s] replaces [p]. *)
Definition joinpath (p : t) (s : string) : t :=
  if String.eqb (root_of s) ""
  then {| root := root p; parts := (parts p ++ parts_of s)%list |}
  else parse s.

(** [str(p)] *)
Definition str (p : t) : string :=
  match root p, parts p with
  | EmptyString, [] => "."
  | r, ps => r +:+ join "/" ps
  end.

(** The components [l], each followed by a slash. *)
Fixpoint before (l : list string) : string :=
  match l with
  | [] => EmptyString
  | a :: l' => a +:+ "/" +:+ before l'
  end.

(** What the text of [PurePosixPath(dir) / name] has before [name], for a
    [name] of one component. *)
Definition prefix_of (dir : string) : string :=
  root_of dir +:+ before (parts_of dir).

End PosixPath.

(** [str(Path(dir) / name)] *)
Definition path_join (dir name : string) : string :=
  PosixPath.str (PosixPath.joinpath (PosixPath.parse dir) name).

(** ** The generator *)

(** The dictionary [generate_strategy] returns. *)
Record Strategy : Type := mkStrategy {
  code : string;
  description : string;
  language : string;
  timestamp : string
}.

(** The dictionary [validate_strategy] returns. *)
Record Validation : Type := mkValidation {
  valid : bool;
  errors : list string;
  warnings : list string;
  score : Z
}.

(** [self]: the client is [None] when the library or the key is missing. *)
Record StrategyGenerator : Type := mkGenerator {
  client : option Client;
  output_dir : string
}.

(** The fields [StrategyGenerator.__init__] sets, from whether the library
    was imported (and the behaviour of the client built with it) and from the
    key in [self.api_key]: there is a client when there is a library and the
    key is a string that is not empty. *)
Definition init (library : option Client) (api_key : option string)
  : StrategyGenerator :=
  {| client := match library, api_key with
               | Some c, Some (String _ _) => Some c
               | _, _ => None
               end;
     output_dir := "/app/generated" |}.

(** [api_key or os.getenv(name)]: the argument when it is a string that is
    not empty, and otherwise what the environment holds under the name. *)
Definition key_or_environ (api_key environ_key : option string)
  : option string :=
  match api_key with
  | Some (String _ _) => api_key
  | _ => environ_key
  end.

(** [StrategyGenerator(api_key)]: the key is looked up, the fields are set,
    and the output directory is made, which can raise. *)
Definition __init__ (disk : Disk) (library : option Client)
  (environ_key api_key : option string) : Py StrategyGenerator :=
  let self := init library (key_or_environ api_key environ_key) in
  mkdir disk (output_dir self);;
  ret self.

(** The python template up to the place of [{description}]. *)
Definition mock_python_head : string :=
  join nl
    [ "from AlgorithmImports import *";
      "";
      "class GeneratedStrategy(QCAlgorithm):";
      "    " +:+ dq +:+ dq +:+ dq;
      "    Auto-generated trading strategy";
      "    Description: " ].

(** The python template after [{description}], up to the closing quotes. *)
Definition mock_python_tail : string :=
  join nl
    [ "";
      "    " +:+ dq +:+ dq +:+ dq;
      "";
      "    def Initialize(self):";
      "        self.SetStartDate(2023, 1, 1)";
      "        self.SetEndDate(2024, 1, 1)";
      "        self.SetCash(100000)";
      "";
      "        # Add equity";
      "        self.symbol = self.AddEquity(" +:+ dq +:+ "SPY" +:+ dq +:+ ", Resolution.Daily).Symbol";
      "";
      "        # Set up indicators";
      "        self.sma_fast = self.SMA(self.symbol, 20, Resolution.Daily)";
      "        self.sma_slow = self.SMA(self.symbol, 50, Resolution.Daily)";
      "";
      "    def OnData(self, data):";
      "        if not self.sma_fast.IsReady or not self.sma_slow.IsReady:";
      "            return";
      "";
      "        # Simple moving average crossover strategy";
      "        if self.sma_fast.Current.Value > self.sma_slow.Current.Value:";
      "            if not self.Portfolio[self.symbol].Invested:";
      "                self.SetHoldings(self.symbol, 1.0)";
      "        else:";
      "            if self.Portfolio[self.symbol].Invested:";
      "                self.Liquidate(self.symbol)";
      "" ].

(** The C# template up to the place of [{prompt}], with the doubled braces of
    the f-string written once. *)
Definition mock_csharp_head : string :=
  join nl
    [ "// Auto-generated C# strategy";
      "// Description: " ].

(** The C# template after [{prompt}]. *)
Definition mock_csharp_tail : string :=
  join nl
    [ "";
      "";
      "namespace QuantConnect.Algorithm.CSharp";
      "{";
      "    public class GeneratedStrategy : QCAlgorithm";
      "    {";
      "        private Symbol _symbol;";
      "";
      "        public override void Initialize()";
      "        {";
      "            SetStartDate(2023, 1, 1);";
      "            SetEndDate(2024, 1, 1);";
      "            SetCash(100000);";
      "";
      "            _symbol = AddEquity(" +:+ dq +:+ "SPY" +:+ dq +:+ ", Resolution.Daily).Symbol;";
      "        }";
      "";
      "        public override void OnData(Slice data)";
      "        {";
      "            if (!Portfolio[_symbol].Invested)";
      "            {";
      "                SetHoldings(_symbol, 1.0);";
      "            }";
      "        }";
      "    }";
      "}" ].

Definition system_prompt (language : string) : string :=
  join nl
    [ "You are an expert QuantConnect Lean trading strategy developer.";
      "Generate clean, production-ready " +:+ language
        +:+ " trading strategies that follow QuantConnect best practices.";
      "";
      "Include:";
      "- Proper initialization and configuration";
      "- Clear variable names and comments";
      "- Risk management (position sizing, stop losses)";
      "- Performance tracking";
      "- Error handling";
      "";
      "The strategy should be complete and runnable in the QuantConnect Lean engine." ].

Definition user_prompt (prompt language : string) : string :=
  join nl
    [ "Generate a QuantConnect Lean trading strategy in " +:+ language
        +:+ " based on this description:";
      "";
      prompt;
      "";
      "Provide only the code without explanation." ].

(** The arguments of [client.messages.create] in [generate_strategy]. *)
Definition strategy_request (prompt lang : string) : Request :=
  {| model := "claude-sonnet-4-20250514";
     max_tokens := 4096;
     messages := [("user", user_prompt prompt lang)];
     system := system_prompt lang |}.

(** The clean-up of fenced code in [generate_strategy]. *)
Definition clean_code_blocks (text : string) : Py string :=
  if contains "```" text then
    inner <~ index (split text "```") 1;
    if startswith inner "python" || startswith inner "csharp"
    then ret (join nl (tail (split inner nl)))
    else ret inner
  else ret text.

Section Generator.

Variable env : Env.
Variable self : StrategyGenerator.

Definition _generate_mock_strategy (prompt lang : string) : Py Strategy :=
  let code :=
    if String.eqb lang "python"
    then mock_python_head +:+ prompt +:+ mock_python_tail
    else mock_csharp_head +:+ prompt +:+ mock_csharp_tail in
  stamp <~ now_isoformat env;
  ret {| code := code; description := prompt;
         language := lang; timestamp := stamp |}.

(** The body of the [try] of [generate_strategy]. *)
Definition request_strategy (c : Client) (prompt lang : string)
  : Py Strategy :=
  content <~ messages_create c (strategy_request prompt lang);
  block <~ index content 0;
  text <~ block_text block;
  cleaned <~ clean_code_blocks text;
  stamp <~ now_isoformat env;
  ret {| code := strip cleaned; description := prompt;
         language := lang; timestamp := stamp |}.

Definition generate_strategy (prompt lang : string) : Py Strategy :=
  match client self with
  | None => _generate_mock_strategy prompt lang
  | Some c =>
      try_except (request_strategy c prompt lang)
                 (fun _ => _generate_mock_strategy prompt lang)
  end.

End Generator.

(** ** [json.dumps(d, indent=2)] for a dictionary of strings *)

Module Json.

(** The backslash, kept out of string literals. *)
Definition bs : string := String (ascii_of_nat 92) "".

Definition hex_digit (n : nat) : string :=
  String.substring n 1 "0123456789abcdef".

(** With [ensure_ascii], everything outside the range from the space to the
    tilde is escaped, and so are the quote and the backslash. *)
Definition escape_char (c : ascii) : string :=
  let n := nat_of_ascii c in
  if (n =? 34)%nat then bs +:+ dq
  else if (n =? 92)%nat then bs +:+ bs
  else if (n =? 10)%nat then bs +:+ "n"
  else if (n =? 13)%nat then bs +:+ "r"
  else if (n =? 9)%nat then bs +:+ "t"
  else if (n =? 12)%nat then bs +:+ "f"
  else if (n =? 8)%nat then bs +:+ "b"
  else if ((32 <=? n) && (n <=? 126))%nat then String c EmptyString
  else bs +:+ "u00" +:+ hex_digit (n / 16) +:+ hex_digit (n mod 16).

Fixpoint escape (s : string) : string :=
  match s with
  | EmptyString => EmptyString
  | String c s' => escape_char c +:+ escape s'
  end.

Definition quoted (s : string) : string := dq +:+ escape s +:+ dq.

Definition member (kv : string * string) : string :=
  "  " +:+ quoted (fst kv) +:+ ": " +:+ quoted (snd kv).

Definition dumps (d : list (string * string)) : string :=
  match d with
  | [] => "{}"
  | _ => "{" +:+ nl +:+ join ("," +:+ nl) (map member d) +:+ nl +:+ "}"
  end.

End Json.

(** ** Validation, persistence and the batch loop *)

Definition append_error (msg : string) (r : Validation) : Validation :=
  {| valid := valid r; errors := errors r ++ [msg];
     warnings := warnings r; score := score r |}.

Definition append_warning (msg : string) (r : Validation) : Validation :=
  {| valid := valid r; errors := errors r;
     warnings := warnings r ++ [msg]; score := score r |}.

Definition set_valid (b : bool) (r : Validation) : Validation :=
  {| valid := b; errors := errors r;
     warnings := warnings r; score := score r |}.

Definition set_score (z : Z) (r : Validation) : Validation :=
  {| valid := valid r; errors := errors r;
     warnings := warnings r; score := z |}.

(** [results] as [validate_strategy] first binds it. *)
Definition fresh_results : Validation :=
  {| valid := true; errors := []; warnings := []; score := 100 |}.

(** The three checks of the python branch, in the order of the source. *)
Definition python_checks (code : string) (results : Validation) : Validation :=
  let results :=
    if negb (contains "AlgorithmImports" code)
       && negb (contains "QCAlgorithm" code)
    then set_valid false (append_error "Missing QuantConnect imports" results)
    else results in
  let results :=
    if negb (contains "def Initialize(" code)
    then set_valid false (append_error "Missing Initialize method" results)
    else results in
  if negb (contains "def OnData(" code)
  then set_score (score results - 20)
         (append_warning "Missing OnData method" results)
  else results.

(** The two checks of the csharp branch. *)
Definition csharp_checks (code : string) (results : Validation) : Validation :=
  let results :=
    if negb (contains "QCAlgorithm" code)
    then set_valid false (append_error "Missing QCAlgorithm base class" results)
    else results in
  if negb (contains "Initialize()" code)
  then set_valid false (append_error "Missing Initialize method" results)
  else results.

(** The world once [main] has printed an outcome. *)
Definition printed (o : Outcome) (w : World) : World :=
  {| files := files w; time := time w; reports := reports w ++ [o] |}.

Section Pipeline.

Variable disk : Disk.
Variable env : Env.
Variable self : StrategyGenerator.

Definition temp_file : string := path_join (output_dir self) "temp_validate.py".

(** The [try] and [except] clauses of the statement that runs pylint: what
    the write or the tool raises is dropped. *)
Definition pylint_attempt (code : string) (results : Validation) : Py Validation :=
  try_except
    (write_text env temp_file code;;
     returncode <~ run_pylint env temp_file;
     if negb (returncode =? 0)
     then ret (append_warning "Linting issues found" results)
     else ret results)
    (fun _ => ret results).

(** Its [finally] clause: [if temp_file.exists(): temp_file.unlink()]. *)
Definition remove_temp_file : Py unit :=
  there <~ path_exists temp_file;
  if there then unlink disk temp_file else ret tt.

(** The [try] / [except] / [finally] statement that runs pylint. The removal
    in the [finally] clause is outside the [except] clause: what it raises
    leaves the statement. *)
Definition try_pylint_on (code : string) (results : Validation) : Py Validation :=
  try_finally (pylint_attempt code results) remove_temp_file.

(** Whether the pylint step, started in world [w], ends with a non-zero
    return code: the text was written and the tool ran to a non-zero exit. *)
Definition lint_warns (w : World) (code : string) : bool :=
  match storage env (time w) temp_file code with
  | Written =>
      match pylint env (S (time w)) (Some code) with
      | ToolExit returncode => negb (returncode =? 0)
      | _ => false
      end
  | _ => false
  end.

Definition validate_strategy_on (code lang : string) : Py Validation :=
  let results := fresh_results in
  if String.eqb lang "python" then
    try_pylint_on code (python_checks code results)
  else if String.eqb lang "csharp" then
    ret (csharp_checks code results)
  else ret results.

Definition save_strategy (strategy : Strategy) (filename : string) : Py string :=
  let ext := if String.eqb (language strategy) "python" then "py" else "cs" in
  let filepath := path_join (output_dir self) (filename +:+ "." +:+ ext) in
  write_text env filepath (code strategy);;
  let meta_path := path_join (output_dir self) (filename +:+ ".json") in
  write_text env meta_path
    (Json.dumps [("description", description strategy);
                 ("language", language strategy);
                 ("timestamp", timestamp strategy);
                 ("filename", filepath)]);;
  ret filepath.

(** The printing of one outcome by [main]. *)
Definition report (o : Outcome) : Py unit :=
  fun w => (Returns tt, printed o w).

(** The body of the [for] loop of [main], for the prompt numbered [i]. *)
Definition main_item_on (i : nat) (prompt : string) : Py unit :=
  strategy <~ generate_strategy env self prompt "python";
  validation <~ validate_strategy_on (code strategy) (language strategy);
  if valid validation then
    filepath <~ save_strategy strategy ("strategy_" +:+ of_nat i);
    report (Saved filepath (score validation))
  else
    report (Rejected (errors validation)).

(** [for i, prompt in enumerate(prompts, i): ...] *)
Fixpoint main_loop_on (i : nat) (prompts : list string) : Py unit :=
  match prompts with
  | [] => ret tt
  | prompt :: rest => main_item_on i prompt;; main_loop_on (S i) rest
  end.

End Pipeline.

(** ** The pipeline on a sound disk

    [try_pylint_on], [validate_strategy_on], [main_item_on] and
    [main_loop_on] are the functions of the source on any disk. Under the
    names of the source stand the same functions on a disk that refuses no
    removal: what is stated of [validate_strategy], [main_item] and
    [main_loop] is stated of runs in which the scratch file of validation can
    be removed. *)

Definition try_pylint (env : Env) (self : StrategyGenerator)
  (code : string) (results : Validation) : Py Validation :=
  try_pylint_on sound env self code results.

Definition validate_strategy (env : Env) (self : StrategyGenerator)
  (code lang : string) : Py Validation :=
  validate_strategy_on sound env self code lang.

Definition main_item (env : Env) (self : StrategyGenerator)
  (i : nat) (prompt : string) : Py unit :=
  main_item_on sound env self i prompt.

Definition main_loop (env : Env) (self : StrategyGenerator)
  (i : nat) (prompts : list string) : Py unit :=
  main_loop_on sound env self i prompts.

Definition main_prompts : list string :=
  [ "Create a momentum strategy using RSI indicator with 30/70 thresholds";
    "Generate a mean reversion strategy using Bollinger Bands";
    "Build a trend following strategy using MACD crossovers" ].

(** [main] on any disk: the generator is built with no argument, so its
    key is the one of the environment. *)
Definition main_on (disk : Disk) (env : Env) (library : option Client)
  (environ_key : option string) : Py unit :=
  generator <~ __init__ disk library environ_key None;
  main_loop_on disk env generator 1 main_prompts.

(** [main] on a sound disk, once the generator is built: [api_key] is the
    key [StrategyGenerator()] finds in its environment. *)
Definition main (env : Env) (library : option Client) (api_key : option string)
  : Py unit :=
  main_loop env (init library api_key) 1 main_prompts.

(** ** The batch policy, as a relation

    [Processed disk env self i prompts w outs r w'] reads: taking the prompts
    in order, numbered from [i] and starting in world [w], the batch reports
    the outcomes [outs] and ends with [r] in world [w']. An item whose report
    is valid is saved and reported as saved; an item whose report is not
    valid is reported with its errors, with no call of [save_strategy]; the
    batch goes on after either. It stops early in two cases only: when
    [validate_strategy] raises (the removal of its scratch file failed), and
    when [save_strategy] raises. *)
Inductive Processed (disk : Disk) (env : Env) (self : StrategyGenerator)
  : nat -> list string -> World -> list Outcome -> Result unit -> World -> Prop :=
| processed_all i w :
    Processed disk env self i [] w [] (Returns tt) w
| processed_saved i prompt rest w s w1 v w2 path w3 outs r w' :
    generate_strategy env self prompt "python" w = (Returns s, w1) ->
    validate_strategy_on disk env self (code s) (language s) w1 = (Returns v, w2) ->
    valid v = true ->
    save_strategy env self s ("strategy_" +:+ of_nat i) w2 = (Returns path, w3) ->
    Processed disk env self (S i) rest (printed (Saved path (score v)) w3) outs r w' ->
    Processed disk env self i (prompt :: rest) w (Saved path (score v) :: outs) r w'
| processed_rejected i prompt rest w s w1 v w2 outs r w' :
    generate_strategy env self prompt "python" w = (Returns s, w1) ->
    validate_strategy_on disk env self (code s) (language s) w1 = (Returns v, w2) ->
    valid v = false ->
    Processed disk env self (S i) rest (printed (Rejected (errors v)) w2) outs r w' ->
    Processed disk env self i (prompt :: rest) w (Rejected (errors v) :: outs) r w'
| processed_validation_raised i prompt rest w s w1 e w2 :
    generate_strategy env self prompt "python" w = (Returns s, w1) ->
    validate_strategy_on disk env self (code s) (language s) w1 = (Raises e, w2) ->
    Processed disk env self i (prompt :: rest) w [] (Raises e) w2
| processed_save_raised i prompt rest w s w1 v w2 e w3 :
    generate_strategy env self prompt "python" w = (Returns s, w1) ->
    validate_strategy_on disk env self (code s) (language s) w1 = (Returns v, w2) ->
    valid v = true ->
    save_strategy env self s ("strategy_" +:+ of_nat i) w2 = (Raises e, w3) ->
    Processed disk env self i (prompt :: rest) w [] (Raises e) w3.

(** ** Conditions on the environment, and sample environments *)

(** The advisory lint capability is unavailable: [pylint] is not installed, or
    never answers in time. *)
Definition lint_unavailable (env : Env) : Prop :=
  forall t file, match pylint env t file with
                 | ToolExit _ => False
                 | _ => True
                 end.

(** Every warning of a report has cost it the same positive amount. *)
Definition every_warning_deducts (v : Validation) : Prop :=
  exists k, 0 < k /\ score v = 100 - k * Z.of_nat (length (warnings v)).

(** The disk refuses no removal. *)
Definition removal_succeeds (disk : Disk) : Prop :=
  forall t path, remove_fails disk t path = None.

(** The storage accepts every write. *)
Definition storage_accepts (env : Env) : Prop :=
  forall t path text, storage env t path text = Written.

Module Sample.

Definition clock (t : nat) : string := "2024-01-01T00:00:0" +:+ of_nat (t mod 10).

(** No pylint, a storage that works. *)
Definition quiet : Env :=
  {| datetime_now := clock;
     pylint := fun _ _ => ToolMissing;
     storage := fun _ _ _ => Written |}.

(** A pylint that finds something in every file. *)
Definition linting : Env :=
  {| datetime_now := clock;
     pylint := fun _ _ => ToolExit 4;
     storage := fun _ _ _ => Written |}.

(** A storage that refuses the source file of the first strategy only. *)
Definition first_save_fails : Env :=
  {| datetime_now := clock;
     pylint := fun _ _ => ToolMissing;
     storage := fun _ path _ =>
                  if String.eqb path "/app/generated/strategy_1.py"
                  then Refused else Written |}.

(** A disk that refuses every removal. *)
Definition stuck : Disk :=
  {| remove_fails := fun _ _ => Some OSError; mkdir_fails := fun _ _ => None |}.

Definition empty_world : World := {| files := ∅; time := 0; reports := [] |}.

(** No key in the environment: the client is [None]. *)
Definition offline : StrategyGenerator := init None None.

(** A strategy, as [generate_strategy] returns it. *)
Definition crossover : Strategy :=
  {| code := "class A(QCAlgorithm): pass";
     description := "Buy on a " +:+ dq +:+ "golden cross" +:+ dq;
     language := "python";
     timestamp := "2024-01-01T00:00:00" |}.

(** A service that answers every request with an empty text. *)
Definition silent_service : Client := fun _ _ => Message [TextBlock ""].

Definition online_silent : StrategyGenerator :=
  init (Some silent_service) (Some "key").

(** A service that answers with code that has no entry point. *)
Definition careless_service : Client := fun _ _ => Message [TextBlock "x = 1"].

End Sample.

(** ** Shapes of text, for the statements about the clean-up *)

(** The character [c] does not occur in [s]. *)
Fixpoint lacks (c : ascii) (s : string) : bool :=
  match s with
  | EmptyString => true
  | String x s' => negb (Ascii.eqb x c) && lacks c s'
  end.

(** The last character of [s], or [d] when [s] is empty. *)
Fixpoint last_char (s : string) (d : ascii) : ascii :=
  match s with
  | EmptyString => d
  | String c s' => last_char s' c
  end.

(** The back tick and the line feed, as characters. *)
Definition backtick : ascii := ascii_of_nat 96.
Definition linefeed : ascii := ascii_of_nat 10.

(** What may follow the text inside a fence: nothing (the fence is never
    closed), or the closing fence and any text after it. *)
Definition closes_fence (closing : string) : Prop :=
  closing = "" \/ exists post, closing = "```" +:+ post.

(** Every character of [s] passes the test [p]. *)
Fixpoint all_chars (p : ascii -> bool) (s : string) : bool :=
  match s with
  | EmptyString => true
  | String c s' => p c && all_chars p s'
  end.

(** How often the character [c] occurs in [s]. *)
Fixpoint count_char (c : ascii) (s : string) : nat :=
  match s with
  | EmptyString => O
  | String x s' => (if Ascii.eqb x c then 1 else 0) + count_char c s'
  end.

(** The printable characters of ASCII, from the space to the tilde. *)
Definition printable (c : ascii) : bool :=
  ((32 <=? nat_of_ascii c) && (nat_of_ascii c <=? 126))%nat.

(** A printable character or a line feed. *)
Definition printable_or_linefeed (c : ascii) : bool :=
  printable c || Ascii.eqb c linefeed.

(** ** Reading a sidecar back

    The reading side of [Json]: [read_body] takes the text after an opening
    quote and gives the string up to the closing quote together with what
    follows it, and [loads] reads an object of strings. *)
Module JsonRead.

Definition hex_value (c : ascii) : option nat :=
  let n := nat_of_ascii c in
  if ((48 <=? n) && (n <=? 57))%nat then Some (n - 48)%nat
  else if ((97 <=? n) && (n <=? 102))%nat then Some (n - 87)%nat
  else None.

Definition push (c : ascii) (r : option (string * string))
  : option (string * string) :=
  match r with
  | Some (s, rest) => Some (String c s, rest)
  | None => None
  end.

Fixpoint read_body (s : string) : option (string * string) :=
  match s with
  | EmptyString => None
  | String c rest =>
      if (nat_of_ascii c =? 34)%nat then Some (EmptyString, rest)
      else if (nat_of_ascii c =? 92)%nat then
        match rest with
        | EmptyString => None
        | String e rest1 =>
            let n := nat_of_ascii e in
            if (n =? 34)%nat then push (ascii_of_nat 34) (read_body rest1)
            else if (n =? 92)%nat then push (ascii_of_nat 92) (read_body rest1)
            else if (n =? 110)%nat then push (ascii_of_nat 10) (read_body rest1)
            else if (n =? 114)%nat then push (ascii_of_nat 13) (read_body rest1)
            else if (n =? 116)%nat then push (ascii_of_nat 9) (read_body rest1)
            else if (n =? 102)%nat then push (ascii_of_nat 12) (read_body rest1)
            else if (n =? 98)%nat then push (ascii_of_nat 8) (read_body rest1)
            else if (n =? 117)%nat then
              match rest1 with
              | String z1 (String z2 (String h1 (String h2 rest2))) =>
                  if Ascii.eqb z1 "0" && Ascii.eqb z2 "0" then
                    match hex_value h1, hex_value h2 with
                    | Some a, Some b =>
                        push (ascii_of_nat (16 * a + b)) (read_body rest2)
                    | _, _ => None
                    end
                  else None
              | _ => None
              end
            else None
        end
      else push c (read_body rest)
  end.

(** White space between the tokens of a JSON text. *)
Definition is_ws (c : ascii) : bool :=
  let n := nat_of_ascii c in
  ((n =? 32) || (n =? 10) || (n =? 13) || (n =? 9))%nat.

Fixpoint skip_ws (s : string) : string :=
  match s with
  | String c rest => if is_ws c then skip_ws rest else s
  | EmptyString => EmptyString
  end.

(** A string literal, after white space: its value and the text after it. *)
Definition read_string (s : string) : option (string * string) :=
  match skip_ws s with
  | String c rest => if (nat_of_ascii c =? 34)%nat then read_body rest else None
  | EmptyString => None
  end.

(** The character [c], after white space: the text after it. *)
Definition expect (c : ascii) (s : string) : option string :=
  match skip_ws s with
  | String x rest => if Ascii.eqb x c then Some rest else None
  | EmptyString => None
  end.

(** The members of an object after its opening brace, up to the closing
    brace and the end of the text; [fuel] bounds their number. *)
Fixpoint read_members (fuel : nat) (s : string)
  : option (list (string * string)) :=
  match fuel with
  | O => None
  | S fuel' =>
      match read_string s with
      | Some (k, s1) =>
          match expect ":" s1 with
          | Some s2 =>
              match read_string s2 with
              | Some (v, s3) =>
                  match expect "," s3 with
                  | Some s4 =>
                      match read_members fuel' s4 with
                      | Some d => Some ((k, v) :: d)
                      | None => None
                      end
                  | None =>
                      match expect "}" s3 with
                      | Some s4 =>
                          if String.eqb (skip_ws s4) "" then Some [(k, v)] else None
                      | None => None
                      end
                  end
              | None => None
              end
          | None => None
          end
      | None => None
      end
  end.

(** [json.loads], for the text of an object whose values are strings: the
    members in the order of the text. A text has fewer members than
    characters. *)
Definition loads (s : string) : option (list (string * string)) :=
  match expect "{" s with
  | Some s1 =>
      match expect "}" s1 with
      | Some s2 => if String.eqb (skip_ws s2) "" then Some [] else None
      | None => read_members (String.length s) s1
      end
  | None => None
  end.

End JsonRead.

(** The two files [main] writes for the prompt numbered [i]. *)
Definition source_path (self : StrategyGenerator) (i : nat) : string :=
  path_join (output_dir self) (("strategy_" +:+ of_nat i) +:+ ".py").

Definition sidecar_path (self : StrategyGenerator) (i : nat) : string :=
  path_join (output_dir self) (("strategy_" +:+ of_nat i) +:+ ".json").

(** Sample replies of the generation service. *)
Module Replies.

(** A reply that wraps the code in a tagged fence, with prose around it. *)
Definition fenced : Client :=
  fun _ _ =>
    Message [TextBlock ("Here is the strategy:" +:+ nl +:+ "```python" +:+ nl
                        +:+ "class A(QCAlgorithm): pass" +:+ nl +:+ "```"
                        +:+ nl +:+ "Good luck!")].

(** A reply that wraps the code in a fence without a tag, never closed. *)
Definition untagged : Client :=
  fun _ _ => Message [TextBlock ("```" +:+ nl +:+ "x = 1")].

(** A reply whose fenced code is one line that starts with the word of the
    language. *)
Definition one_line : Client :=
  fun _ _ => Message [TextBlock ("```python_version = 3```")].

(** A reply of plain code with blank space around it. *)
Definition padded : Client :=
  fun _ _ => Message [TextBlock ("  x = 1 " +:+ nl)].

End Replies.

(** ** Facts about strings *)

Section StringFacts.

Lemma prefix_app (p a b : string) :
  String.prefix p a = true -> String.prefix p (a +:+ b) = true.
Proof.
  revert a. induction p as [|c p IH]; intros a H.
  - destruct (a +:+ b); reflexivity.
  - destruct a as [|d a]; simpl in *; [discriminate|].
    destruct (ascii_dec c d); [auto | discriminate].
Qed.

Lemma contains_prefix (sub s : string) :
  String.prefix sub s = true -> contains sub s = true.
Proof. intros H. destruct s; cbn [contains]; rewrite H; reflexivity. Qed.

Lemma contains_app_l (sub a b : string) :
  contains sub a = true -> contains sub (a +:+ b) = true.
Proof.
  induction a as [|c a IH]; intros H.
  - apply contains_prefix. apply (prefix_app sub "" b).
    simpl in H. rewrite orb_false_r in H. exact H.
  - cbn [contains] in H. apply orb_true_iff in H as [H|H].
    + apply contains_prefix. apply prefix_app, H.
    + change (String c a +:+ b) with (String c (a +:+ b)).
      cbn [contains]. rewrite (IH H). apply orb_true_r.
Qed.

Lemma contains_app_r (sub a b : string) :
  contains sub b = true -> contains sub (a +:+ b) = true.
Proof.
  intros H. induction a as [|c a IH]; [exact H|].
  change (String c a +:+ b) with (String c (a +:+ b)).
  cbn [contains]. rewrite IH. apply orb_true_r.
Qed.

Lemma app_inv_head (a b c : string) : a +:+ b = a +:+ c -> b = c.
Proof. induction a as [|x a IH]; simpl; intros H; [exact H|]. injection H. auto. Qed.

Lemma app_not_empty_l (a b : string) : a <> "" -> a +:+ b <> "".
Proof. destruct a; [congruence | discriminate]. Qed.

(** A text that contains the separator splits into two parts at least. *)
Lemma split_from_contains (sep s : string) :
  sep <> "" -> contains sep s = true ->
  exists p q ps, split_from sep O s = (p, q :: ps).
Proof.
  intros Hsep. induction s as [|c s IH]; intros H.
  - destruct sep; [congruence | discriminate].
  - cbn [contains] in H. cbn [split_from].
    destruct (String.prefix sep (String c s)) eqn:E.
    + destruct (split_from sep (String.length sep - 1) s) as [p ps]. eauto.
    + simpl in H. destruct (IH H) as (p & q & ps & ->). eauto.
Qed.

Lemma prefix_refl (s : string) : String.prefix s s = true.
Proof.
  induction s as [|c s IH]; [reflexivity|].
  cbn [String.prefix]. destruct (ascii_dec c c); [exact IH | contradiction].
Qed.

End StringFacts.

(** ** Splitting, joining and stripping *)

Section SplitFacts.

Lemma lacks_app (c : ascii) (a b : string) :
  lacks c (a +:+ b) = lacks c a && lacks c b.
Proof.
  induction a as [|x a IH]; [reflexivity|].
  change (String x a +:+ b) with (String x (a +:+ b)).
  cbn [lacks]. rewrite IH. apply andb_assoc.
Qed.

Lemma prefix_head_differs (c x : ascii) (sep s : string) :
  Ascii.eqb x c = false -> String.prefix (String c sep) (String x s) = false.
Proof.
  intros H. cbn [String.prefix].
  destruct (ascii_dec c x) as [->|]; [|reflexivity].
  rewrite Ascii.eqb_refl in H. discriminate.
Qed.

(** Passing over the rest of a separator that was just matched. *)
Lemma split_from_skip (sep t rest : string) :
  split_from sep (String.length t) (t +:+ rest) = split_from sep O rest.
Proof. induction t as [|x t IH]; [destruct rest; reflexivity | exact IH]. Qed.

(** A text without the first character of the separator is one part. *)
Lemma split_from_lacks (c : ascii) (sep s : string) :
  lacks c s = true -> split_from (String c sep) O s = (s, []).
Proof.
  induction s as [|x s IH]; [reflexivity|].
  cbn [lacks]. intros H. apply andb_true_iff in H as [Hx Hs].
  apply negb_true_iff in Hx.
  cbn [split_from]. rewrite (prefix_head_differs c x sep s Hx), (IH Hs).
  reflexivity.
Qed.

(** Up to the first separator, when the text before it has none of its
    first character. *)
Lemma split_from_first (c : ascii) (sep s rest : string) :
  lacks c s = true ->
  split_from (String c sep) O (s +:+ String c sep +:+ rest)
  = (s, let '(p, ps) := split_from (String c sep) O rest in p :: ps).
Proof.
  induction s as [|x s IH].
  - intros _.
    change ("" +:+ String c sep +:+ rest) with (String c (sep +:+ rest)).
    cbn [split_from].
    assert (String.prefix (String c sep) (String c (sep +:+ rest)) = true) as ->.
    { apply (prefix_app (String c sep) (String c sep) rest), prefix_refl. }
    change (String.length (String c sep) - 1)%nat with (String.length sep - 0)%nat.
    rewrite Nat.sub_0_r, split_from_skip.
    destruct (split_from (String c sep) 0 rest). reflexivity.
  - cbn [lacks]. intros H. apply andb_true_iff in H as [Hx Hs].
    apply negb_true_iff in Hx.
    change (String x s +:+ String c sep +:+ rest)
      with (String x (s +:+ String c sep +:+ rest)).
    cbn [split_from]. rewrite (prefix_head_differs c x sep _ Hx), (IH Hs).
    reflexivity.
Qed.

(** Joining the lines of a text gives the text back. *)
Lemma join_split_nl (s : string) :
  join nl (let '(p, ps) := split_from nl O s in p :: ps) = s.
Proof.
  assert (forall x p ps, join nl (String x p :: ps) = String x (join nl (p :: ps)))
    as Hcons by (intros x p [|q ps]; reflexivity).
  assert (forall x t, String.prefix nl (String x t)
                      = if ascii_dec (ascii_of_nat 10) x then true else false)
    as Hhead.
  { intros x t. unfold nl. cbn [String.prefix].
    destruct (ascii_dec (ascii_of_nat 10) x); [destruct t|]; reflexivity. }
  induction s as [|x s IH]; [reflexivity|].
  cbn [split_from]. rewrite Hhead.
  destruct (ascii_dec (ascii_of_nat 10) x) as [<-|Hne].
  - change (String.length nl - 1)%nat with 0%nat.
    destruct (split_from nl 0 s) as [p ps].
    change (join nl ("" :: p :: ps)) with (nl +:+ join nl (p :: ps)).
    rewrite IH. reflexivity.
  - destruct (split_from nl 0 s) as [p ps]. rewrite Hcons, IH. reflexivity.
Qed.

Lemma rstrip_idempotent (s : string) : rstrip (rstrip s) = rstrip s.
Proof.
  induction s as [|c s IH]; [reflexivity|].
  cbn [rstrip]. destruct (rstrip s) as [|d r] eqn:E.
  - destruct (is_space c) eqn:Hc; [reflexivity|].
    cbn [rstrip]. rewrite Hc. reflexivity.
  - cbn [rstrip] in *. rewrite IH. reflexivity.
Qed.

(** Stripping the right end keeps a first character that is not white. *)
Lemma rstrip_keeps_head (c : ascii) (s : string) :
  is_space c = false -> exists r, rstrip (String c s) = String c r.
Proof.
  intros Hc. cbn [rstrip]. destruct (rstrip s); rewrite ?Hc; eauto.
Qed.

Lemma lstrip_head (s : string) :
  lstrip s = "" \/ exists c r, lstrip s = String c r /\ is_space c = false.
Proof.
  induction s as [|c s IH]; [left; reflexivity|].
  cbn [lstrip]. destruct (is_space c) eqn:Hc; [exact IH | right; eauto].
Qed.

Lemma strip_stable (s : string) :
  lstrip (strip s) = strip s /\ rstrip (strip s) = strip s.
Proof.
  unfold strip. split; [|apply rstrip_idempotent].
  destruct (lstrip_head s) as [->|(c & r & -> & Hc)]; [reflexivity|].
  destruct (rstrip_keeps_head c r Hc) as (r' & ->).
  cbn [lstrip]. rewrite Hc. reflexivity.
Qed.

End SplitFacts.

Section MoreStringFacts.

Lemma append_assoc (a b c : string) : (a +:+ b) +:+ c = a +:+ b +:+ c.
Proof.
  induction a as [|x a IH]; [reflexivity|].
  change (String x ((a +:+ b) +:+ c) = String x (a +:+ b +:+ c)).
  rewrite IH. reflexivity.
Qed.

Lemma append_empty_r (a : string) : a +:+ "" = a.
Proof.
  induction a as [|x a IH]; [reflexivity|].
  change (String x (a +:+ "") = String x a). rewrite IH. reflexivity.
Qed.

Lemma length_append (a b : string) :
  String.length (a +:+ b) = (String.length a + String.length b)%nat.
Proof.
  induction a as [|x a IH]; [reflexivity|].
  change (S (String.length (a +:+ b)) = S (String.length a + String.length b)).
  rewrite IH. reflexivity.
Qed.

Lemma app_inv_tail (a b c : string) : a +:+ c = b +:+ c -> a = b.
Proof.
  revert b. induction a as [|x a IH]; intros [|y b] H.
  - reflexivity.
  - apply (f_equal String.length) in H.
    rewrite !length_append in H. cbn [String.length] in H. lia.
  - apply (f_equal String.length) in H.
    rewrite !length_append in H. cbn [String.length] in H. lia.
  - change (String x (a +:+ c) = String y (b +:+ c)) in H.
    injection H as -> H. rewrite (IH b H). reflexivity.
Qed.

Lemma last_char_app (a b : string) (c d : ascii) :
  last_char (a +:+ String c b) d = last_char b c.
Proof.
  revert d. induction a as [|x a IH]; intros d; [reflexivity|].
  change (String x a +:+ String c b) with (String x (a +:+ String c b)).
  cbn [last_char]. apply IH.
Qed.

Lemma of_nat_inj (n m : nat) : of_nat n = of_nat m -> n = m.
Proof.
  assert (forall k, Nat.to_uint k <> Decimal.Nil) as Hnonnil.
  { intros k. rewrite <- (DecimalNat.Unsigned.of_to k) at 1.
    rewrite DecimalNat.Unsigned.to_of. apply DecimalFacts.unorm_nonnil. }
  unfold of_nat. intros H.
  apply (f_equal NilZero.uint_of_string) in H.
  rewrite !NilZero.usu in H by apply Hnonnil.
  injection H as H. apply DecimalNat.Unsigned.to_uint_inj, H.
Qed.

End MoreStringFacts.

(** ** Paths *)

Section Paths.

Lemma split_cons (c : ascii) (s : string) :
  split (String c s) "/"
  = if PosixPath.is_slash c then EmptyString :: split s "/"
    else match split s "/" with
         | p :: ps => String c p :: ps
         | [] => []
         end.
Proof.
  unfold split, PosixPath.is_slash. cbn [split_from String.prefix].
  destruct (ascii_dec "/" c) as [<-|Hne].
  - assert (String.prefix "" s = true) as -> by (destruct s; reflexivity).
    cbn [String.length Nat.sub Ascii.eqb Bool.eqb].
    destruct (split_from "/" 0 s). reflexivity.
  - destruct (Ascii.eqb_spec c "/") as [->|_]; [contradiction|].
    destruct (split_from "/" 0 s). reflexivity.
Qed.

Lemma split_lacks_slash (s : string) :
  lacks "/" s = true -> split s "/" = [s].
Proof.
  intros H. unfold split.
  change "/" with (String "/"%char "").
  rewrite (split_from_lacks "/" "" s H). reflexivity.
Qed.

(** The parts of a text that ends with [suffix]: all but the last part do
    not depend on the suffix, which the last part ends with. *)
Lemma split_suffix (f : string) :
  exists ps g, forall suffix,
    lacks "/" suffix = true ->
    split (f +:+ suffix) "/" = (ps ++ [g +:+ suffix])%list.
Proof.
  induction f as [|c f (ps & g & IH)].
  - exists [], "". intros suffix H. apply split_lacks_slash, H.
  - destruct (PosixPath.is_slash c) eqn:Hc.
    + exists ("" :: ps), g. intros suffix H.
      change (String c f +:+ suffix) with (String c (f +:+ suffix)).
      rewrite split_cons, Hc, (IH suffix H). reflexivity.
    + destruct ps as [|q qs].
      * exists [], (String c g). intros suffix H.
        change (String c f +:+ suffix) with (String c (f +:+ suffix)).
        rewrite split_cons, Hc, (IH suffix H). reflexivity.
      * exists (String c q :: qs), g. intros suffix H.
        change (String c f +:+ suffix) with (String c (f +:+ suffix)).
        rewrite split_cons, Hc, (IH suffix H). reflexivity.
Qed.

Lemma root_of_suffix (f s' : string) :
  PosixPath.root_of (f +:+ String "." s') = PosixPath.root_of (f +:+ ".").
Proof.
  destruct f as [|a [|b [|c f]]]; cbn; try reflexivity;
    repeat match goal with
           | |- context [PosixPath.is_slash ?x] =>
               destruct (PosixPath.is_slash x)
           end; reflexivity.
Qed.

Lemma counts_dotted (g s' : string) :
  s' <> "" -> PosixPath.counts (g +:+ String "." s') = true.
Proof.
  intros H. unfold PosixPath.counts.
  destruct (String.eqb_spec (g +:+ String "." s') "") as [E|_];
    [destruct g; discriminate|].
  destruct (String.eqb_spec (g +:+ String "." s') ".") as [E|_];
    [|reflexivity].
  destruct g as [|x g].
  - injection E as E. contradiction.
  - change (String x (g +:+ String "." s') = String "." "") in E.
    injection E as _ E. destruct g; discriminate.
Qed.

Lemma join_snoc (l : list string) (x : string) :
  join "/" (l ++ [x]) = PosixPath.before l +:+ x.
Proof.
  induction l as [|a l IH]; [reflexivity|].
  cbn [app PosixPath.before]. rewrite !append_assoc, <- IH.
  destruct l; reflexivity.
Qed.

Lemma str_snoc (r : string) (l : list string) (x : string) :
  PosixPath.str {| PosixPath.root := r; PosixPath.parts := (l ++ [x])%list |}
  = r +:+ PosixPath.before l +:+ x.
Proof.
  unfold PosixPath.str. cbn [PosixPath.root PosixPath.parts].
  rewrite <- join_snoc. destruct r, l; reflexivity.
Qed.

(** Joining a name of one component puts it after the directory. *)
Lemma path_join_simple (dir name : string) :
  lacks "/" name = true ->
  PosixPath.counts name = true ->
  path_join dir name = PosixPath.prefix_of dir +:+ name.
Proof.
  intros Hlacks Hcounts.
  assert (PosixPath.root_of name = "") as Hroot.
  { destruct name as [|a name]; [reflexivity|].
    cbn [lacks] in Hlacks. apply andb_true_iff in Hlacks as [Ha _].
    apply negb_true_iff in Ha. unfold PosixPath.root_of, PosixPath.is_slash.
    rewrite Ha. reflexivity. }
  assert (PosixPath.parts_of name = [name]) as Hparts.
  { unfold PosixPath.parts_of. rewrite (split_lacks_slash name Hlacks).
    cbn [List.filter]. rewrite Hcounts. reflexivity. }
  unfold path_join, PosixPath.joinpath. rewrite Hroot, Hparts.
  cbn [String.eqb PosixPath.parse PosixPath.root PosixPath.parts].
  rewrite str_snoc. unfold PosixPath.prefix_of. rewrite append_assoc.
  reflexivity.
Qed.

Lemma path_join_simple_inj (dir a b : string) :
  lacks "/" a = true -> PosixPath.counts a = true ->
  lacks "/" b = true -> PosixPath.counts b = true ->
  path_join dir a = path_join dir b -> a = b.
Proof.
  intros Ha1 Ha2 Hb1 Hb2 H.
  rewrite (path_join_simple dir a Ha1 Ha2), (path_join_simple dir b Hb1 Hb2) in H.
  apply app_inv_head in H. exact H.
Qed.

(** A name that ends with a dotted extension: the path ends with it too, and
    what is before it does not depend on the extension. *)
Lemma path_join_suffix (dir f : string) :
  exists base, forall s',
    lacks "/" s' = true -> s' <> "" ->
    path_join dir (f +:+ String "." s') = base +:+ String "." s'.
Proof.
  destruct (split_suffix f) as (ps & g & Hsplit).
  assert (forall s', lacks "/" s' = true -> s' <> "" ->
            PosixPath.parts_of (f +:+ String "." s')
            = (List.filter PosixPath.counts ps ++ [g +:+ String "." s'])%list)
    as Hparts.
  { intros s' Hs Hne. unfold PosixPath.parts_of.
    rewrite (Hsplit (String "." s')) by exact Hs.
    rewrite List.filter_app. cbn [List.filter].
    rewrite (counts_dotted g s' Hne). reflexivity. }
  destruct (String.eqb (PosixPath.root_of (f +:+ ".")) "") eqn:Hroot.
  - exists (PosixPath.root_of dir
            +:+ PosixPath.before (PosixPath.parts_of dir
                                  ++ List.filter PosixPath.counts ps)
            +:+ g).
    intros s' Hs Hne. unfold path_join, PosixPath.joinpath.
    rewrite root_of_suffix, Hroot, (Hparts s' Hs Hne).
    cbn [PosixPath.parse PosixPath.root PosixPath.parts].
    rewrite List.app_assoc, str_snoc, !append_assoc. reflexivity.
  - exists (PosixPath.root_of (f +:+ ".")
            +:+ PosixPath.before (List.filter PosixPath.counts ps) +:+ g).
    intros s' Hs Hne. unfold path_join, PosixPath.joinpath.
    rewrite root_of_suffix, Hroot. unfold PosixPath.parse.
    rewrite root_of_suffix, (Hparts s' Hs Hne), str_snoc, !append_assoc.
    reflexivity.
Qed.

(** The sidecar never lands on the source file. *)
Lemma source_is_not_sidecar (dir filename lang : string) :
  path_join dir (filename +:+ "." +:+
                 (if String.eqb lang "python" then "py" else "cs"))
  <> path_join dir (filename +:+ ".json").
Proof.
  destruct (path_join_suffix dir filename) as (base & Hbase).
  change ".json" with (String "." "json").
  change (filename +:+ "." +:+ (if String.eqb lang "python" then "py" else "cs"))
    with (filename +:+ String "." (if String.eqb lang "python" then "py" else "cs")).
  rewrite (Hbase "json") by (reflexivity || discriminate).
  destruct (String.eqb lang "python");
    rewrite Hbase by (reflexivity || discriminate);
    intros H; apply app_inv_head in H; discriminate.
Qed.

(** The decimal text of a number has no slash. *)
Lemma of_nat_lacks_slash (n : nat) : lacks "/" (of_nat n) = true.
Proof.
  assert (forall d, lacks "/" (NilEmpty.string_of_uint d) = true) as H
    by (induction d; cbn; auto).
  unfold of_nat, NilZero.string_of_uint.
  destruct (Nat.to_uint n); solve [reflexivity | apply H].
Qed.

(** The path of a file of [main], whose name has one component. *)
Lemma strategy_path (dir : string) (i : nat) (suffix : string) :
  lacks "/" suffix = true ->
  path_join dir (("strategy_" +:+ of_nat i) +:+ suffix)
  = PosixPath.prefix_of dir +:+ ("strategy_" +:+ of_nat i) +:+ suffix.
Proof.
  intros H. apply path_join_simple; [|reflexivity].
  rewrite !lacks_app, of_nat_lacks_slash, H. reflexivity.
Qed.

End Paths.

(** ** The sidecar as a record *)

Section JsonFacts.

(** Reading back one escaped character. *)
Lemma read_escape_char (c : ascii) (tail : string) :
  JsonRead.read_body (Json.escape_char c +:+ tail)
  = JsonRead.push c (JsonRead.read_body tail).
Proof.
  destruct c as [[|] [|] [|] [|] [|] [|] [|] [|]]; reflexivity.
Qed.

(** Reading back an escaped string, up to the closing quote. *)
Lemma read_escape (s rest : string) :
  JsonRead.read_body (Json.escape s +:+ dq +:+ rest) = Some (s, rest).
Proof.
  induction s as [|c s IH]; [reflexivity|].
  cbn [Json.escape]. rewrite append_assoc, read_escape_char, IH. reflexivity.
Qed.

(** A quoted string ends where its closing quote is: two texts that start
    with quoted strings and are equal start with the same string. *)
Lemma quoted_inj (a b r1 r2 : string) :
  Json.quoted a +:+ r1 = Json.quoted b +:+ r2 -> a = b /\ r1 = r2.
Proof.
  unfold Json.quoted. rewrite !append_assoc. intros H.
  apply (app_inv_head dq) in H.
  apply (f_equal JsonRead.read_body) in H.
  rewrite !read_escape in H. injection H as -> ->. auto.
Qed.

Lemma member_inj (k1 k2 v1 v2 r1 r2 : string) :
  Json.member (k1, v1) +:+ r1 = Json.member (k2, v2) +:+ r2 ->
  k1 = k2 /\ v1 = v2 /\ r1 = r2.
Proof.
  unfold Json.member. cbn [fst snd]. rewrite !append_assoc. intros H.
  apply (app_inv_head "  ") in H.
  apply quoted_inj in H as [-> H].
  apply (app_inv_head ": ") in H.
  apply quoted_inj in H as [-> ->]. auto.
Qed.

(** The members of a dictionary, one per line, followed by [tail]. *)
Lemma members_inj (d1 d2 : list (string * string)) (x1 x2 : string * string) :
  join ("," +:+ nl) (map Json.member (x1 :: d1)) +:+ nl +:+ "}"
  = join ("," +:+ nl) (map Json.member (x2 :: d2)) +:+ nl +:+ "}" ->
  x1 :: d1 = x2 :: d2.
Proof.
  revert x1 x2 d2. induction d1 as [|y1 d1 IH]; intros [k1 v1] [k2 v2] d2 H.
  - destruct d2 as [|y2 d2].
    + cbn [map join] in H. apply member_inj in H as (-> & -> & _). reflexivity.
    + cbn [map] in H.
      change (join ("," +:+ nl) (Json.member (k2, v2) :: Json.member y2 :: map Json.member d2))
        with (Json.member (k2, v2) +:+ ("," +:+ nl)
              +:+ join ("," +:+ nl) (map Json.member (y2 :: d2))) in H.
      cbn [join] in H. rewrite !append_assoc in H.
      apply member_inj in H as (_ & _ & H). discriminate.
  - destruct d2 as [|y2 d2].
    + cbn [map] in H.
      change (join ("," +:+ nl) (Json.member (k1, v1) :: Json.member y1 :: map Json.member d1))
        with (Json.member (k1, v1) +:+ ("," +:+ nl)
              +:+ join ("," +:+ nl) (map Json.member (y1 :: d1))) in H.
      cbn [join] in H. rewrite !append_assoc in H.
      apply member_inj in H as (_ & _ & H). discriminate.
    + cbn [map] in H.
      change (join ("," +:+ nl) (Json.member (k1, v1) :: Json.member y1 :: map Json.member d1))
        with (Json.member (k1, v1) +:+ ("," +:+ nl)
              +:+ join ("," +:+ nl) (map Json.member (y1 :: d1))) in H.
      change (join ("," +:+ nl) (Json.member (k2, v2) :: Json.member y2 :: map Json.member d2))
        with (Json.member (k2, v2) +:+ ("," +:+ nl)
              +:+ join ("," +:+ nl) (map Json.member (y2 :: d2))) in H.
      rewrite !append_assoc in H.
      apply member_inj in H as (-> & -> & H).
      apply (app_inv_head ("," +:+ nl)) in H.
      rewrite (IH _ _ _ H). reflexivity.
Qed.

(** [json.dumps] loses nothing: equal dumps come from equal dictionaries. *)
Lemma dumps_inj (d1 d2 : list (string * string)) :
  Json.dumps d1 = Json.dumps d2 -> d1 = d2.
Proof.
  destruct d1 as [|x1 d1], d2 as [|x2 d2]; unfold Json.dumps; intros H.
  - reflexivity.
  - discriminate.
  - discriminate.
  - apply (app_inv_head "{"), (app_inv_head nl) in H.
    apply members_inj, H.
Qed.

(** Reading past white space, and a token where it stands. *)
Lemma read_string_ws (c : ascii) (x : string) :
  JsonRead.is_ws c = true ->
  JsonRead.read_string (String c x) = JsonRead.read_string x.
Proof.
  intros H. unfold JsonRead.read_string. cbn [JsonRead.skip_ws]. rewrite H.
  reflexivity.
Qed.

Lemma expect_ws (t c : ascii) (x : string) :
  JsonRead.is_ws c = true ->
  JsonRead.expect t (String c x) = JsonRead.expect t x.
Proof.
  intros H. unfold JsonRead.expect. cbn [JsonRead.skip_ws]. rewrite H.
  reflexivity.
Qed.

Lemma read_string_quoted (s rest : string) :
  JsonRead.read_string (Json.quoted s +:+ rest) = Some (s, rest).
Proof.
  unfold Json.quoted. rewrite !append_assoc.
  change (JsonRead.read_body (Json.escape s +:+ dq +:+ rest) = Some (s, rest)).
  apply read_escape.
Qed.

(** Reading back one member and going on with what follows it. *)
Lemma read_members_step (fuel : nat) (k v rest : string) :
  JsonRead.read_members (S fuel) (nl +:+ Json.member (k, v) +:+ rest)
  = match JsonRead.expect "," rest with
    | Some more =>
        match JsonRead.read_members fuel more with
        | Some d => Some ((k, v) :: d)
        | None => None
        end
    | None =>
        match JsonRead.expect "}" rest with
        | Some tail =>
            if String.eqb (JsonRead.skip_ws tail) "" then Some [(k, v)] else None
        | None => None
        end
    end.
Proof.
  assert (JsonRead.read_string (nl +:+ Json.member (k, v) +:+ rest)
          = Some (k, ": " +:+ Json.quoted v +:+ rest)) as Hkey.
  { unfold Json.member. cbn [fst snd]. rewrite !append_assoc.
    change (JsonRead.read_string
              (String (ascii_of_nat 10)
                 (String " " (String " "
                    (Json.quoted k +:+ ": " +:+ Json.quoted v +:+ rest))))
            = Some (k, ": " +:+ Json.quoted v +:+ rest)).
    rewrite !read_string_ws by reflexivity. apply read_string_quoted. }
  assert (JsonRead.expect ":" (": " +:+ Json.quoted v +:+ rest)
          = Some (String " " (Json.quoted v +:+ rest))) as Hcolon by reflexivity.
  assert (JsonRead.read_string (String " " (Json.quoted v +:+ rest))
          = Some (v, rest)) as Hvalue.
  { rewrite read_string_ws by reflexivity. apply read_string_quoted. }
  cbn [JsonRead.read_members]. rewrite Hkey, Hcolon, Hvalue. reflexivity.
Qed.

(** The members that [Json.dumps] writes are read back as they were. *)
Lemma read_members_dumps (d : list (string * string)) (x : string * string)
      (fuel : nat) :
  (List.length d < fuel)%nat ->
  JsonRead.read_members fuel
    (nl +:+ join ("," +:+ nl) (map Json.member (x :: d)) +:+ nl +:+ "}")
  = Some (x :: d).
Proof.
  revert x fuel. induction d as [|y d IH]; intros [k v] fuel Hfuel;
    (destruct fuel as [|fuel]; [cbn [List.length] in Hfuel; lia|]).
  - cbn [map join]. rewrite read_members_step. reflexivity.
  - cbn [map].
    change (join ("," +:+ nl) (Json.member (k, v) :: Json.member y :: map Json.member d))
      with (Json.member (k, v) +:+ ("," +:+ nl)
            +:+ join ("," +:+ nl) (map Json.member (y :: d))).
    rewrite !append_assoc. rewrite read_members_step.
    change (JsonRead.expect ","
              ("," +:+ nl +:+ join ("," +:+ nl) (map Json.member (y :: d))
               +:+ nl +:+ "}"))
      with (Some (nl +:+ join ("," +:+ nl) (map Json.member (y :: d))
                  +:+ nl +:+ "}")).
    cbv beta iota.
    rewrite IH by (cbn [List.length] in Hfuel; lia). reflexivity.
Qed.

(** A dump is longer than its dictionary. *)
Lemma members_length (l : list (string * string)) :
  (List.length l <= String.length (join ("," +:+ nl) (map Json.member l)))%nat.
Proof.
  induction l as [|x l IH]; [cbn; lia|].
  destruct l as [|y l].
  - cbn [map join List.length]. unfold Json.member.
    rewrite length_append. cbn [String.length]. lia.
  - cbn [map].
    change (join ("," +:+ nl) (Json.member x :: Json.member y :: map Json.member l))
      with (Json.member x +:+ ("," +:+ nl)
            +:+ join ("," +:+ nl) (map Json.member (y :: l))).
    rewrite !length_append. cbn [List.length] in *.
    change (String.length ",") with 1%nat. lia.
Qed.

(** [json.loads] reads back what [json.dumps] wrote. *)
Lemma loads_dumps (d : list (string * string)) :
  JsonRead.loads (Json.dumps d) = Some d.
Proof.
  destruct d as [|[k v] d]; [reflexivity|].
  unfold Json.dumps, JsonRead.loads.
  set (body := join ("," +:+ nl) (map Json.member ((k, v) :: d))).
  change (JsonRead.expect "{" ("{" +:+ nl +:+ body +:+ nl +:+ "}"))
    with (Some (nl +:+ body +:+ nl +:+ "}")).
  cbv iota beta.
  assert (JsonRead.expect "}" (nl +:+ body +:+ nl +:+ "}") = None) as ->.
  { subst body. cbn [map]. destruct d as [|y d].
    - cbn [map join]. unfold Json.member. cbn [fst]. reflexivity.
    - change (join ("," +:+ nl) (Json.member (k, v) :: map Json.member (y :: d)))
        with (Json.member (k, v) +:+ ("," +:+ nl)
              +:+ join ("," +:+ nl) (map Json.member (y :: d))).
      unfold Json.member at 1. cbn [fst]. reflexivity. }
  apply read_members_dumps.
  pose proof (members_length ((k, v) :: d)) as Hlen. fold body in Hlen.
  change ("{" +:+ nl +:+ body +:+ nl +:+ "}")
    with (String "{" (nl +:+ body +:+ nl +:+ "}")).
  cbn [String.length]. rewrite !length_append. cbn [List.length] in Hlen. lia.
Qed.

End JsonFacts.

(** ** The definitions on concrete inputs *)

Example split_fence :
  split ("x```python" +:+ nl +:+ "a = 1" +:+ nl +:+ "```y") "```"
  = ["x"; "python" +:+ nl +:+ "a = 1" +:+ nl; "y"].
Proof. reflexivity. Qed.

Example split_no_separator : split "abc" "```" = ["abc"].
Proof. reflexivity. Qed.

Example split_adjacent : split "a``````b" "```" = ["a"; ""; "b"].
Proof. reflexivity. Qed.

Example split_four_ticks : split "a````b" "```" = ["a"; "`b"].
Proof. reflexivity. Qed.

Example strip_both_ends : strip ("  " +:+ nl +:+ "a b " +:+ nl) = "a b".
Proof. reflexivity. Qed.

Example strip_blank : strip ("  " +:+ nl) = "".
Proof. reflexivity. Qed.

Example join_lines : join nl ["a"; "b"; ""] = "a" +:+ nl +:+ "b" +:+ nl.
Proof. reflexivity. Qed.

Example of_nat_12 : of_nat 12 = "12".
Proof. reflexivity. Qed.

Example path_join_relative :
  path_join "/app/generated" "strategy_1.py" = "/app/generated/strategy_1.py".
Proof. reflexivity. Qed.

Example path_join_absolute : path_join "/app/generated" "/tmp/x.py" = "/tmp/x.py".
Proof. reflexivity. Qed.

(** A leading [./], doubled slashes and a trailing slash leave no trace;
    [..] is kept. *)
Example path_join_dot_stem :
  path_join "/app/generated" "./strategy_1.cs" = "/app/generated/strategy_1.cs".
Proof. reflexivity. Qed.

Example path_join_slashes :
  path_join "/app//generated/" "a//b/./c.py" = "/app/generated/a/b/c.py".
Proof. reflexivity. Qed.

Example path_join_keeps_dotdot :
  path_join "/app/generated" "../x.py" = "/app/generated/../x.py".
Proof. reflexivity. Qed.

Example path_join_two_slashes : path_join "/app/generated" "//x.py" = "//x.py".
Proof. reflexivity. Qed.

(** An empty argument is no key: the key of the environment is taken, and
    the client is built. *)
Example init_empty_argument :
  __init__ sound (Some Sample.silent_service) (Some "key") (Some "")
    Sample.empty_world
  = (Returns (init (Some Sample.silent_service) (Some "key")),
     tick Sample.empty_world)
  /\ client (init (Some Sample.silent_service) (Some "key"))
     = Some Sample.silent_service.
Proof. split; reflexivity. Qed.

(** A compact text is read as well as an indented one; a text that is cut
    short is not read. *)
Example loads_compact :
  JsonRead.loads ("{" +:+ dq +:+ "a" +:+ dq +:+ ":" +:+ dq +:+ "b" +:+ dq +:+ "}")
  = Some [("a", "b")].
Proof. reflexivity. Qed.

Example loads_cut_short :
  JsonRead.loads ("{" +:+ dq +:+ "a" +:+ dq +:+ ":" +:+ dq +:+ "b" +:+ dq) = None.
Proof. reflexivity. Qed.

Example loads_escapes :
  JsonRead.loads (Json.dumps [("a", "x" +:+ nl +:+ dq +:+ "y"); ("b", "")])
  = Some [("a", "x" +:+ nl +:+ dq +:+ "y"); ("b", "")].
Proof. reflexivity. Qed.

(** A fenced reply with a language tag loses the fence and the tag line. *)
Example clean_tagged_fence :
  fst (clean_code_blocks
         ("Here it is:" +:+ nl +:+ "```python" +:+ nl +:+ "x = 1" +:+ nl
          +:+ "```" +:+ nl +:+ "Done.")
         Sample.empty_world)
  = Returns ("x = 1" +:+ nl).
Proof. reflexivity. Qed.

Example dumps_escapes :
  Json.dumps [("a", "x" +:+ nl +:+ dq +:+ "y")]
  = "{" +:+ nl +:+ "  " +:+ dq +:+ "a" +:+ dq +:+ ": " +:+ dq +:+ "x"
    +:+ Json.bs +:+ "n" +:+ Json.bs +:+ dq +:+ "y" +:+ dq +:+ nl +:+ "}".
Proof. reflexivity. Qed.

(** A service whose code has no entry point: every item is rejected, and
    [main] still goes through the three prompts and returns. *)
Example rejected_items_do_not_end_main :
  let '(r, w') := main Sample.quiet (Some Sample.careless_service) (Some "key")
                    Sample.empty_world in
  r = Returns tt
  /\ reports w'
     = [ Rejected ["Missing QuantConnect imports"; "Missing Initialize method"];
         Rejected ["Missing QuantConnect imports"; "Missing Initialize method"];
         Rejected ["Missing QuantConnect imports"; "Missing Initialize method"] ]
  /\ files w' = ∅.
Proof. vm_compute. auto. Qed.

(** With no key, the three prompts of [main] are saved with the score 100. *)
Example main_offline_saves_all :
  let '(r, w') := main Sample.quiet None None Sample.empty_world in
  r = Returns tt
  /\ reports w'
     = [ Saved "/app/generated/strategy_1.py" 100;
         Saved "/app/generated/strategy_2.py" 100;
         Saved "/app/generated/strategy_3.py" 100 ]
  /\ map fst (map_to_list (files w'))
     = [ "/app/generated/strategy_3.json"; "/app/generated/strategy_3.py";
         "/app/generated/strategy_1.json"; "/app/generated/strategy_1.py";
         "/app/generated/strategy_2.json"; "/app/generated/strategy_2.py" ].
Proof. vm_compute. split; [|split]; reflexivity. Qed.

(** On a disk that refuses every removal, the validation of the first prompt
    raises and ends [main]: nothing is reported, and the temporary file is
    the one file left. *)
Example refused_removal_ends_main :
  let '(r, w') := main_on Sample.stuck Sample.quiet None None Sample.empty_world in
  r = Raises OSError
  /\ reports w' = []
  /\ map fst (map_to_list (files w')) = [ "/app/generated/temp_validate.py" ].
Proof. vm_compute. split; [|split]; reflexivity. Qed.

(** On a sound disk, [main_on] is [main] after the making of the directory. *)
Example main_on_sound (env : Env) (library : option Client)
        (environ_key : option string) (w : World) :
  main_on sound env library environ_key w = main env library environ_key (tick w).
Proof. reflexivity. Qed.

(** ** The pylint step *)

Section PylintStep.

Variable env : Env.
Variable self : StrategyGenerator.

(** The step returns, adds its warning exactly when pylint ran to a non-zero
    exit, and leaves the file system as it found it, less the temporary
    file. *)
Lemma try_pylint_run (code : string) (results : Validation) (w : World) :
  exists w',
    try_pylint env self code results w
    = (Returns (if lint_warns env self w code
                then append_warning "Linting issues found" results
                else results), w')
    /\ files w' = delete (temp_file self) (files w)
    /\ reports w' = reports w.
Proof.
  unfold try_pylint, try_pylint_on, pylint_attempt, remove_temp_file, lint_warns,
    try_finally, try_except, bind, write_text, run_pylint, path_exists, unlink, ret.
  destruct (storage env (time w) (temp_file self) code) as [| |partial];
    cbn [files time tick set_files reports remove_fails sound].
  - rewrite lookup_insert_eq.
    destruct (pylint env (S (time w)) (Some code)) as [| |rc];
      cbn [files time tick set_files reports remove_fails sound];
      rewrite ?lookup_insert_eq;
      try destruct (negb (rc =? 0));
      cbn [files time tick set_files reports remove_fails sound];
      rewrite ?lookup_insert_eq;
      (rewrite bool_decide_eq_true_2 by eauto);
      cbn [files time tick set_files reports remove_fails sound];
      rewrite ?lookup_insert_eq;
      eexists; (split; [reflexivity|]);
      cbn [files time tick set_files reports remove_fails sound];
      rewrite delete_insert_eq; auto.
  - destruct (files w !! temp_file self) as [old|] eqn:E.
    + rewrite bool_decide_eq_true_2 by eauto.
      cbn [files time tick set_files reports remove_fails sound]. rewrite E.
      eexists; split; [reflexivity|]. auto.
    + rewrite bool_decide_eq_false_2 by (intros [? ?]; discriminate).
      eexists; split; [reflexivity|].
      cbn [files time tick set_files reports remove_fails sound].
      rewrite delete_id by exact E. auto.
  - rewrite lookup_insert_eq.
    rewrite bool_decide_eq_true_2 by eauto.
    cbn [files time tick set_files reports remove_fails sound]. rewrite lookup_insert_eq.
    eexists; split; [reflexivity|].
    cbn [files time tick set_files reports remove_fails sound].
    rewrite delete_insert_eq. auto.
Qed.

(** The attempt returns whatever the write and the tool do. It adds its
    warning exactly when pylint ran to a non-zero exit, and touches no file
    but the temporary one. *)
Lemma pylint_attempt_run (code : string) (results : Validation) (w : World) :
  exists wb,
    pylint_attempt env self code results w
    = (Returns (if lint_warns env self w code
                then append_warning "Linting issues found" results
                else results), wb)
    /\ reports wb = reports w
    /\ (forall path, path <> temp_file self -> files wb !! path = files w !! path).
Proof.
  unfold pylint_attempt, lint_warns, try_except, bind, write_text, run_pylint, ret.
  destruct (storage env (time w) (temp_file self) code) as [| |partial];
    cbn [files time tick set_files reports].
  - rewrite lookup_insert_eq.
    destruct (pylint env (S (time w)) (Some code)) as [| |rc];
      try destruct (negb (rc =? 0));
      eexists; (split; [reflexivity|]);
      cbn [files time tick set_files reports];
      (split; [reflexivity|]);
      intros path Hne; apply lookup_insert_ne; congruence.
  - eexists; split; [reflexivity|]. auto.
  - eexists; split; [reflexivity|]. cbn [files time tick set_files reports].
    split; [reflexivity|].
    intros path Hne; apply lookup_insert_ne; congruence.
Qed.

(** The [finally] clause: nothing to do when the file is not there, and
    otherwise the removal, which the disk may refuse. *)
Lemma remove_temp_file_run (disk : Disk) (w : World) :
  remove_temp_file disk self w
  = match files w !! temp_file self with
    | None => (Returns tt, w)
    | Some _ =>
        match remove_fails disk (time w) (temp_file self) with
        | None => (Returns tt, set_files (delete (temp_file self) (files w)) w)
        | Some e => (Raises e, w)
        end
    end.
Proof.
  unfold remove_temp_file, bind, path_exists, unlink, ret.
  destruct (files w !! temp_file self) as [old|] eqn:E.
  - rewrite bool_decide_eq_true_2 by eauto. rewrite E. reflexivity.
  - rewrite bool_decide_eq_false_2 by (intros [? ?]; discriminate). reflexivity.
Qed.

(** The whole statement on any disk: it returns what the attempt returned
    once the temporary file is gone, and raises what the removal raised, with
    the file still there. *)
Lemma try_pylint_on_run (disk : Disk) (code : string) (results : Validation)
      (w : World) :
  exists out w',
    try_pylint_on disk env self code results w = (out, w')
    /\ reports w' = reports w
    /\ (forall path, path <> temp_file self -> files w' !! path = files w !! path)
    /\ match out with
       | Returns r =>
           r = (if lint_warns env self w code
                then append_warning "Linting issues found" results
                else results)
           /\ files w' !! temp_file self = None
       | Raises e =>
           remove_fails disk (time w') (temp_file self) = Some e
           /\ is_Some (files w' !! temp_file self)
       end.
Proof.
  destruct (pylint_attempt_run code results w) as (wb & E & Hr & Hf).
  unfold try_pylint_on, try_finally. rewrite E, remove_temp_file_run.
  destruct (files wb !! temp_file self) as [old|] eqn:Ef.
  - destruct (remove_fails disk (time wb) (temp_file self)) as [e|] eqn:Er.
    + exists (Raises e), wb. split; [reflexivity|]. split; [exact Hr|].
      split; [exact Hf|]. split; [exact Er|]. rewrite Ef. eauto.
    + eexists; eexists. split; [reflexivity|].
      cbn [files time set_files reports]. split; [exact Hr|]. split.
      * intros path Hne. rewrite lookup_delete_ne by congruence. auto.
      * split; [reflexivity | apply lookup_delete_eq].
  - eexists; exists wb. split; [reflexivity|]. split; [exact Hr|].
    split; [exact Hf|]. split; [reflexivity | exact Ef].
Qed.

(** [validate_strategy] on any disk prints nothing, and returns when the
    disk refuses no removal. *)
Lemma validate_strategy_on_run (disk : Disk) (code lang : string) (w : World) :
  exists out w',
    validate_strategy_on disk env self code lang w = (out, w')
    /\ reports w' = reports w
    /\ (removal_succeeds disk -> exists v, out = Returns v).
Proof.
  unfold validate_strategy_on.
  destruct (String.eqb lang "python").
  - destruct (try_pylint_on_run disk code (python_checks code fresh_results) w)
      as (out & w' & E & Hr & _ & Hout).
    exists out, w'. split; [exact E|]. split; [exact Hr|].
    intros Hok. destruct out as [v|e]; [eauto|].
    destruct Hout as [Hfail _]. rewrite Hok in Hfail. discriminate.
  - destruct (String.eqb lang "csharp");
      eexists; exists w; (split; [reflexivity|]); split; eauto.
Qed.

Lemma lint_unavailable_quiet (w : World) (code : string) :
  lint_unavailable env -> lint_warns env self w code = false.
Proof.
  intros H. unfold lint_warns.
  destruct (storage env (time w) (temp_file self) code); try reflexivity.
  specialize (H (S (time w)) (Some code)).
  destruct (pylint env (S (time w)) (Some code));
    [reflexivity | reflexivity | contradiction].
Qed.

Lemma validate_python (code : string) (w : World) :
  validate_strategy env self code "python" w
  = try_pylint env self code (python_checks code fresh_results) w.
Proof. reflexivity. Qed.

(** On a sound disk [validate_strategy] returns, with the report of the checks of
    the language, to which pylint may have added its warning. *)
Lemma validate_strategy_run (code lang : string) (w : World) :
  exists v w',
    validate_strategy env self code lang w = (Returns v, w')
    /\ reports w' = reports w
    /\ ((lang = "python"
         /\ v = (if lint_warns env self w code
                 then append_warning "Linting issues found"
                        (python_checks code fresh_results)
                 else python_checks code fresh_results)
         /\ files w' = delete (temp_file self) (files w))
        \/ (lang <> "python" /\ lang = "csharp"
            /\ v = csharp_checks code fresh_results /\ w' = w)
        \/ (lang <> "python" /\ lang <> "csharp"
            /\ v = fresh_results /\ w' = w)).
Proof.
  unfold validate_strategy, validate_strategy_on.
  destruct (String.eqb_spec lang "python") as [->|Hpy].
  - destruct (try_pylint_run code (python_checks code fresh_results) w)
      as (w' & E & Hf & Hr).
    eexists; exists w'. split; [exact E|]. split; [exact Hr|]. left. auto.
  - destruct (String.eqb_spec lang "csharp") as [->|Hcs].
    + eexists; exists w. split; [reflexivity|]. split; [reflexivity|].
      right. left. auto.
    + eexists; exists w. split; [reflexivity|]. split; [reflexivity|].
      right. right. auto.
Qed.

End PylintStep.

(** ** The checks of the python branch *)

Ltac case_markers code :=
  destruct (contains "AlgorithmImports" code);
  destruct (contains "QCAlgorithm" code);
  destruct (contains "def Initialize(" code);
  destruct (contains "def OnData(" code).

Section Checks.

Variable code : string.

Lemma python_checks_score :
  score (python_checks code fresh_results)
  = if contains "def OnData(" code then 100 else 80.
Proof. unfold python_checks. case_markers code; reflexivity. Qed.

Lemma python_checks_warnings :
  warnings (python_checks code fresh_results)
  = if contains "def OnData(" code then [] else ["Missing OnData method"].
Proof. unfold python_checks. case_markers code; reflexivity. Qed.

Lemma python_checks_valid :
  valid (python_checks code fresh_results)
  = (contains "AlgorithmImports" code || contains "QCAlgorithm" code)
    && contains "def Initialize(" code.
Proof. unfold python_checks. case_markers code; reflexivity. Qed.

Lemma python_checks_errors :
  valid (python_checks code fresh_results) = true
  <-> errors (python_checks code fresh_results) = [].
Proof.
  unfold python_checks. case_markers code; cbn; split; congruence.
Qed.

Lemma csharp_checks_errors :
  valid (csharp_checks code fresh_results) = true
  <-> errors (csharp_checks code fresh_results) = [].
Proof.
  unfold csharp_checks.
  destruct (contains "QCAlgorithm" code);
    destruct (contains "Initialize()" code); cbn; split; congruence.
Qed.

Lemma csharp_checks_quiet :
  warnings (csharp_checks code fresh_results) = []
  /\ score (csharp_checks code fresh_results) = 100.
Proof.
  unfold csharp_checks.
  destruct (contains "QCAlgorithm" code);
    destruct (contains "Initialize()" code); cbn; auto.
Qed.

End Checks.

Lemma quiet_lint_unavailable : lint_unavailable Sample.quiet.
Proof. intros t file. exact I. Qed.

Lemma quiet_storage_accepts : storage_accepts Sample.quiet.
Proof. intros t path text. reflexivity. Qed.

(** ** Validation *)

(** C3 (as stated, refuted): a report can carry a warning that cost nothing.
    With a pylint that exits non-zero on a source that passes every check,
    the report has the one warning of the pylint step and still the score
    100, so no positive amount per warning accounts for the score. *)
Lemma lint_warning_is_free :
  exists v w',
    validate_strategy Sample.linting Sample.offline
      "QCAlgorithm def Initialize( def OnData(" "python" Sample.empty_world
    = (Returns v, w')
    /\ valid v = true
    /\ warnings v = ["Linting issues found"]
    /\ score v = 100
    /\ ~ every_warning_deducts v.
Proof.
  eexists; eexists. split; [vm_compute; reflexivity|].
  cbn [valid warnings score]. repeat split.
  intros (k & Hk & E). cbn in E. lia.
Qed.

(** C3 (amended): of the two warnings [validate_strategy] can append, only
    "Missing OnData method" deducts from the score, 20 each time, and
    "Linting issues found" deducts nothing; no warning touches [valid], which
    is true exactly when [errors] is empty. So the final score is 100 less 20
    for each "Missing OnData method" among the warnings. *)
Theorem score_counts_missing_ondata
  (env : Env) (self : StrategyGenerator) (code lang : string) (w : World) :
  exists v w',
    validate_strategy env self code lang w = (Returns v, w')
    /\ Forall (fun x => x = "Missing OnData method" \/ x = "Linting issues found")
              (warnings v)
    /\ score v
       = 100 - 20 * Z.of_nat (count_occ string_dec (warnings v)
                                        "Missing OnData method")
    /\ (valid v = true <-> errors v = []).
Proof.
  destruct (validate_strategy_run env self code lang w)
    as (v & w' & E & _ & [(-> & -> & _) | [(_ & -> & -> & _) | (_ & _ & -> & _)]]);
    eexists; exists w'; (split; [exact E|]).
  - pose proof (python_checks_score code) as Hs.
    pose proof (python_checks_warnings code) as Hw.
    pose proof (python_checks_errors code) as He.
    destruct (lint_warns env self w code);
      cbn [append_warning valid errors warnings score];
      rewrite Hs, Hw; destruct (contains "def OnData(" code);
      (split; [repeat constructor; auto|]); (split; [reflexivity | exact He]).
  - destruct (csharp_checks_quiet code) as [-> ->].
    split; [constructor|]. split; [reflexivity | apply csharp_checks_errors].
  - cbn. split; [constructor|]. split; [reflexivity|]. split; reflexivity.
Qed.

(** C4 (as stated, refuted): a python source with [def Initialize(] and
    without [def OnData(] is not always valid. The source below has neither
    "AlgorithmImports" nor "QCAlgorithm", and the first check rejects it. *)
Lemma initialize_alone_is_rejected :
  exists v w',
    validate_strategy Sample.quiet Sample.offline
      "def Initialize(self): pass" "python" Sample.empty_world
    = (Returns v, w')
    /\ contains "def Initialize(" "def Initialize(self): pass" = true
    /\ contains "def OnData(" "def Initialize(self): pass" = false
    /\ valid v = false
    /\ errors v = ["Missing QuantConnect imports"].
Proof.
  eexists; eexists. split; [vm_compute; reflexivity|]. repeat split.
Qed.

(** C4 (amended): for a python source that contains [def Initialize(] and
    lacks [def OnData(], with pylint unavailable, [validate_strategy] returns
    score 80 and exactly the warning "Missing OnData method"; [valid] is true
    exactly when the source also contains "AlgorithmImports" or "QCAlgorithm". *)
Theorem missing_ondata_report
  (env : Env) (self : StrategyGenerator) (code : string) (w : World) :
  lint_unavailable env ->
  contains "def Initialize(" code = true ->
  contains "def OnData(" code = false ->
  exists v w',
    validate_strategy env self code "python" w = (Returns v, w')
    /\ score v = 80
    /\ warnings v = ["Missing OnData method"]
    /\ valid v = (contains "AlgorithmImports" code || contains "QCAlgorithm" code).
Proof.
  intros Hlint Hinit Hdata.
  destruct (try_pylint_run env self code (python_checks code fresh_results) w)
    as (w' & E & _).
  rewrite (lint_unavailable_quiet env self w code Hlint) in E.
  eexists; exists w'. split; [exact E|].
  rewrite python_checks_score, python_checks_warnings, python_checks_valid.
  rewrite Hinit, Hdata, andb_true_r. auto.
Qed.

Lemma missing_ondata_report_witness :
  lint_unavailable Sample.quiet
  /\ contains "def Initialize(" "QCAlgorithm def Initialize(self):" = true
  /\ contains "def OnData(" "QCAlgorithm def Initialize(self):" = false
  /\ exists v w',
       validate_strategy Sample.quiet Sample.offline
         "QCAlgorithm def Initialize(self):" "python" Sample.empty_world
       = (Returns v, w')
       /\ score v = 80
       /\ warnings v = ["Missing OnData method"]
       /\ valid v = (contains "AlgorithmImports" "QCAlgorithm def Initialize(self):"
                     || contains "QCAlgorithm" "QCAlgorithm def Initialize(self):").
Proof.
  split; [exact quiet_lint_unavailable|].
  split; [reflexivity|]. split; [reflexivity|].
  apply missing_ondata_report;
    [exact quiet_lint_unavailable | reflexivity | reflexivity].
Defined.



(** C8: with the advisory lint capability unavailable, [validate_strategy]
    is deterministic: two calls on the same source and language return the
    same report, whatever the instant, the clock, the storage and the state
    of the file system at either call. *)
Theorem validate_strategy_deterministic
  (env1 env2 : Env) (self : StrategyGenerator)
  (code lang : string) (w1 w2 : World) :
  lint_unavailable env1 ->
  lint_unavailable env2 ->
  exists v w1' w2',
    validate_strategy env1 self code lang w1 = (Returns v, w1')
    /\ validate_strategy env2 self code lang w2 = (Returns v, w2').
Proof.
  intros H1 H2.
  destruct (validate_strategy_run env1 self code lang w1)
    as (v1 & w1' & E1 & _ & C1).
  destruct (validate_strategy_run env2 self code lang w2)
    as (v2 & w2' & E2 & _ & C2).
  rewrite (lint_unavailable_quiet env1 self w1 code H1) in C1.
  rewrite (lint_unavailable_quiet env2 self w2 code H2) in C2.
  exists v1, w1', w2'. split; [exact E1|]. rewrite E2.
  assert (v1 = v2) as ->; [|reflexivity].
  destruct C1 as [(? & -> & _) | [(? & ? & -> & _) | (? & ? & -> & _)]];
    destruct C2 as [(? & -> & _) | [(? & ? & -> & _) | (? & ? & -> & _)]];
    congruence.
Qed.

Lemma validate_strategy_deterministic_witness :
  lint_unavailable Sample.quiet
  /\ exists v w1' w2',
       validate_strategy Sample.quiet Sample.offline
         "def OnData(self, data):" "python" Sample.empty_world
       = (Returns v, w1')
       /\ validate_strategy Sample.quiet Sample.offline
            "def OnData(self, data):" "python" (tick Sample.empty_world)
          = (Returns v, w2').
Proof.
  split; [exact quiet_lint_unavailable|].
  apply validate_strategy_deterministic; exact quiet_lint_unavailable.
Defined.

(** C9: the score of every report of [validate_strategy] is 100 or 80. It
    starts at 100 and only the missing [def OnData(] of the python branch
    subtracts, 20 and once: the score is 80 exactly for a python source
    without [def OnData(]. *)
Theorem score_is_100_or_80
  (env : Env) (self : StrategyGenerator) (code lang : string) (w : World) :
  exists v w',
    validate_strategy env self code lang w = (Returns v, w')
    /\ (score v = 100 \/ score v = 80)
    /\ (score v = 80 <-> lang = "python" /\ contains "def OnData(" code = false).
Proof.
  destruct (validate_strategy_run env self code lang w)
    as (v & w' & E & _ & [(-> & -> & _) | [(H & _ & -> & _) | (H & _ & -> & _)]]);
    eexists; exists w'; (split; [exact E|]).
  - assert (score (if lint_warns env self w code
                   then append_warning "Linting issues found"
                          (python_checks code fresh_results)
                   else python_checks code fresh_results)
            = if contains "def OnData(" code then 100 else 80) as ->.
    { destruct (lint_warns env self w code); apply python_checks_score. }
    destruct (contains "def OnData(" code); split; auto; split;
      intros; try lia; intuition congruence.
  - destruct (csharp_checks_quiet code) as [_ ->].
    split; [auto|]. split; [lia | intros [? _]; contradiction].
  - cbn. split; [auto|]. split; [lia | intros [? _]; contradiction].
Qed.

(** C10: for a language other than "python" and "csharp", [validate_strategy]
    applies no check and touches nothing: it returns valid, with no error, no
    warning and the score 100, whatever the source. *)
Theorem unknown_language_passes
  (env : Env) (self : StrategyGenerator) (code lang : string) (w : World) :
  lang <> "python" ->
  lang <> "csharp" ->
  validate_strategy env self code lang w
  = (Returns {| valid := true; errors := []; warnings := []; score := 100 |}, w).
Proof.
  intros Hpy Hcs. unfold validate_strategy, validate_strategy_on.
  destruct (String.eqb_spec lang "python"); [contradiction|].
  destruct (String.eqb_spec lang "csharp"); [contradiction|].
  reflexivity.
Qed.

Lemma unknown_language_passes_witness :
  "java" <> "python"
  /\ "java" <> "csharp"
  /\ validate_strategy Sample.linting Sample.offline "" "java" Sample.empty_world
     = (Returns {| valid := true; errors := []; warnings := []; score := 100 |},
        Sample.empty_world).
Proof.
  split; [discriminate|]. split; [discriminate|].
  apply unknown_language_passes; discriminate.
Defined.

(** ** Generation *)

Section Generation.

Variable env : Env.

Lemma mock_run (prompt lang : string) (w : World) :
  _generate_mock_strategy env prompt lang w
  = (Returns {| code := if String.eqb lang "python"
                        then mock_python_head +:+ prompt +:+ mock_python_tail
                        else mock_csharp_head +:+ prompt +:+ mock_csharp_tail;
                description := prompt;
                language := lang;
                timestamp := datetime_now env (time w) |},
     tick w).
Proof. reflexivity. Qed.

Lemma mock_code_not_empty (prompt lang : string) :
  (if String.eqb lang "python"
   then mock_python_head +:+ prompt +:+ mock_python_tail
   else mock_csharp_head +:+ prompt +:+ mock_csharp_tail) <> "".
Proof.
  destruct (String.eqb lang "python"); apply app_not_empty_l;
    vm_compute; discriminate.
Qed.

(** The fallback source for python carries every marker the python checks
    look for, whatever the prompt. *)
Lemma mock_python_markers (prompt : string) :
  let code := mock_python_head +:+ prompt +:+ mock_python_tail in
  contains "AlgorithmImports" code = true
  /\ contains "def Initialize(" code = true
  /\ contains "def OnData(" code = true.
Proof.
  cbv zeta. split; [|split].
  - apply contains_app_l. vm_compute. reflexivity.
  - apply contains_app_r, contains_app_r. vm_compute. reflexivity.
  - apply contains_app_r, contains_app_r. vm_compute. reflexivity.
Qed.

(** The clean-up never raises: a text that contains the fence has a part
    after the first fence. *)
Lemma clean_code_blocks_returns (text : string) (w : World) :
  exists cleaned, clean_code_blocks text w = (Returns cleaned, w).
Proof.
  unfold clean_code_blocks.
  destruct (contains "```" text) eqn:E; [|eexists; reflexivity].
  destruct (split_from_contains "```" text) as (p & q & ps & Hs);
    [discriminate | exact E |].
  unfold split. rewrite Hs. unfold bind, index. cbn [lookup list_lookup].
  unfold ret at 1.
  destruct (startswith q "python" || startswith q "csharp");
    eexists; reflexivity.
Qed.

(** What the [try] of [generate_strategy] does, by the reply of the
    service. *)
Lemma request_strategy_run (c : Client) (prompt lang : string) (w : World) :
  match c (time w) (strategy_request prompt lang) with
  | Message (TextBlock text :: _) =>
      exists cleaned,
        clean_code_blocks text (tick w) = (Returns cleaned, tick w)
        /\ request_strategy env c prompt lang w
           = (Returns {| code := strip cleaned;
                         description := prompt;
                         language := lang;
                         timestamp := datetime_now env (S (time w)) |},
              tick (tick w))
  | _ => exists e, request_strategy env c prompt lang w = (Raises e, tick w)
  end.
Proof.
  assert (forall k : list ContentBlock -> Py Strategy,
            bind (messages_create c (strategy_request prompt lang)) k w
            = match c (time w) (strategy_request prompt lang) with
              | ServiceError e => (Raises e, tick w)
              | Message content => k content (tick w)
              end) as Hcall.
  { intros k. unfold bind, messages_create.
    destruct (c (time w) (strategy_request prompt lang)); reflexivity. }
  unfold request_strategy. rewrite Hcall. clear Hcall.
  destruct (c (time w) (strategy_request prompt lang)) as [e|[|[text|] rest]].
  - eexists; reflexivity.
  - eexists; reflexivity.
  - destruct (clean_code_blocks_returns text (tick w)) as (cleaned & E).
    exists cleaned. split; [exact E|].
    unfold bind, index. cbn [lookup list_lookup]. unfold ret at 1.
    unfold block_text, ret at 1. rewrite E. reflexivity.
  - eexists; reflexivity.
Qed.

End Generation.



(** C2: with no client configured, [generate_strategy] for python returns a
    source that contains [def Initialize(] and [def OnData(], and
    [validate_strategy] on that source, with pylint unavailable, reports it
    valid with the score 100 (and with no error and no warning). *)
Theorem fallback_python_validates
  (env : Env) (self : StrategyGenerator) (prompt : string) (w : World) :
  client self = None ->
  lint_unavailable env ->
  exists s w1 v w2,
    generate_strategy env self prompt "python" w = (Returns s, w1)
    /\ contains "def Initialize(" (code s) = true
    /\ contains "def OnData(" (code s) = true
    /\ validate_strategy env self (code s) (language s) w1 = (Returns v, w2)
    /\ valid v = true
    /\ score v = 100
    /\ errors v = []
    /\ warnings v = [].
Proof.
  intros Hclient Hlint. unfold generate_strategy. rewrite Hclient, mock_run.
  cbn [String.eqb Ascii.eqb Bool.eqb andb].
  destruct (mock_python_markers prompt) as (Himp & Hinit & Hdata).
  destruct (try_pylint_run env self
              (mock_python_head +:+ prompt +:+ mock_python_tail)
              (python_checks (mock_python_head +:+ prompt +:+ mock_python_tail)
                             fresh_results) (tick w)) as (w2 & E & _).
  rewrite lint_unavailable_quiet in E by exact Hlint.
  eexists; eexists; eexists; exists w2.
  split; [reflexivity|]. cbn [code language].
  split; [exact Hinit|]. split; [exact Hdata|].
  split; [exact E|].
  unfold python_checks. rewrite Himp, Hinit, Hdata. cbn. auto.
Qed.

Lemma fallback_python_validates_witness :
  client Sample.offline = None
  /\ lint_unavailable Sample.quiet
  /\ exists s w1 v w2,
       generate_strategy Sample.quiet Sample.offline
         "Build a trend following strategy using MACD crossovers" "python"
         Sample.empty_world
       = (Returns s, w1)
       /\ contains "def Initialize(" (code s) = true
       /\ contains "def OnData(" (code s) = true
       /\ validate_strategy Sample.quiet Sample.offline (code s) (language s) w1
          = (Returns v, w2)
       /\ valid v = true
       /\ score v = 100
       /\ errors v = []
       /\ warnings v = [].
Proof.
  split; [reflexivity|]. split; [exact quiet_lint_unavailable|].
  apply fallback_python_validates;
    [reflexivity | exact quiet_lint_unavailable].
Defined.

(** ** Persistence *)


Section Persistence.

Variable env : Env.
Variable self : StrategyGenerator.

(** [save_strategy] on a storage that accepts its two writes. *)
Lemma save_strategy_run (strategy : Strategy) (filename : string) (w : World) :
  let filepath :=
    path_join (output_dir self)
      (filename +:+ "." +:+
       (if String.eqb (language strategy) "python" then "py" else "cs")) in
  let meta_path := path_join (output_dir self) (filename +:+ ".json") in
  let meta :=
    Json.dumps [("description", description strategy);
                ("language", language strategy);
                ("timestamp", timestamp strategy);
                ("filename", filepath)] in
  storage env (time w) filepath (code strategy) = Written ->
  storage env (S (time w)) meta_path meta = Written ->
  save_strategy env self strategy filename w
  = (Returns filepath,
     {| files := <[meta_path := meta]> (<[filepath := code strategy]> (files w));
        time := S (S (time w));
        reports := reports w |}).
Proof.
  intros filepath meta_path meta H1 H2.
  unfold save_strategy, bind, write_text.
  fold filepath. rewrite H1. cbn [time tick set_files files reports].
  fold meta_path. fold meta. rewrite H2. reflexivity.
Qed.

(** [save_strategy] raises only when the storage refuses a write. *)
Lemma save_strategy_raises (strategy : Strategy) (filename : string)
      (w w' : World) (e : PyExc) :
  save_strategy env self strategy filename w = (Raises e, w') ->
  exists t path text, storage env t path text <> Written.
Proof.
  unfold save_strategy, bind, write_text.
  set (filepath := path_join _ (filename +:+ "." +:+ _)).
  destruct (storage env (time w) filepath (code strategy)) eqn:E1;
    cbn [time tick set_files files reports].
  2, 3: intros _; exists (time w), filepath, (code strategy); congruence.
  set (meta_path := path_join _ (filename +:+ ".json")).
  set (meta := Json.dumps _).
  destruct (storage env (S (time w)) meta_path meta) eqn:E2;
    [discriminate | |];
    intros _; exists (S (time w)), meta_path, meta; congruence.
Qed.

End Persistence.



(** ** The batch loop *)

Section Batch.

Variable env : Env.
Variable self : StrategyGenerator.

Lemma bind_run {A B} (m : Py A) (k : A -> Py B) (w : World) :
  bind m k w = match m w with
               | (Returns a, w') => k a w'
               | (Raises e, w') => (Raises e, w')
               end.
Proof. reflexivity. Qed.

(** Generation returns, and prints no outcome. *)
Lemma generate_strategy_returns (prompt lang : string) (w : World) :
  exists s w',
    generate_strategy env self prompt lang w = (Returns s, w')
    /\ reports w' = reports w.
Proof.
  unfold generate_strategy. destruct (client self) as [c|].
  - pose proof (request_strategy_run env c prompt lang w) as H.
    unfold try_except.
    destruct (c (time w) (strategy_request prompt lang))
      as [e|[|[text|] rest]].
    1, 2, 4: destruct H as (e' & ->); rewrite mock_run; eauto.
    destruct H as (cleaned & _ & ->). eauto.
  - rewrite mock_run. eauto.
Qed.

(** Persistence prints no outcome, whether it returns or raises. *)
Lemma save_strategy_reports (strategy : Strategy) (filename : string)
      (w w' : World) (r : Result string) :
  save_strategy env self strategy filename w = (r, w') ->
  reports w' = reports w.
Proof.
  unfold save_strategy, bind, write_text.
  destruct (storage env (time w) _ (code strategy));
    cbn [time tick set_files files reports];
    [|intros [= _ <-]; reflexivity|intros [= _ <-]; reflexivity].
  destruct (storage env (S (time w)) _ _);
    cbn [time tick set_files files reports];
    intros [= _ <-]; reflexivity.
Qed.

(** One turn of the loop, once generation and validation have returned. *)
Lemma main_item_run (i : nat) (prompt : string) (w w1 w2 : World)
      (s : Strategy) (v : Validation) :
  generate_strategy env self prompt "python" w = (Returns s, w1) ->
  validate_strategy env self (code s) (language s) w1 = (Returns v, w2) ->
  main_item env self i prompt w
  = if valid v
    then match save_strategy env self s ("strategy_" +:+ of_nat i) w2 with
         | (Returns path, w3) => (Returns tt, printed (Saved path (score v)) w3)
         | (Raises e, w3) => (Raises e, w3)
         end
    else (Returns tt, printed (Rejected (errors v)) w2).
Proof.
  intros E1 E2. unfold validate_strategy in E2.
  unfold main_item, main_item_on. rewrite bind_run, E1, bind_run, E2.
  destruct (valid v); [|reflexivity].
  rewrite bind_run.
  destruct (save_strategy env self s ("strategy_" +:+ of_nat i) w2) as [[path|e] w3];
    reflexivity.
Qed.

(** One turn of the loop on any disk, once generation has returned: what
    validation raises leaves the turn. *)
Lemma main_item_on_run (disk : Disk) (i : nat) (prompt : string)
      (w w1 : World) (s : Strategy) :
  generate_strategy env self prompt "python" w = (Returns s, w1) ->
  main_item_on disk env self i prompt w
  = match validate_strategy_on disk env self (code s) (language s) w1 with
    | (Returns v, w2) =>
        if valid v
        then match save_strategy env self s ("strategy_" +:+ of_nat i) w2 with
             | (Returns path, w3) => (Returns tt, printed (Saved path (score v)) w3)
             | (Raises e, w3) => (Raises e, w3)
             end
        else (Returns tt, printed (Rejected (errors v)) w2)
    | (Raises e, w2) => (Raises e, w2)
    end.
Proof.
  intros E1. unfold main_item_on. rewrite bind_run, E1, bind_run.
  destruct (validate_strategy_on disk env self (code s) (language s) w1)
    as [[v|e] w2]; [|reflexivity].
  destruct (valid v); [|reflexivity].
  rewrite bind_run.
  destruct (save_strategy env self s ("strategy_" +:+ of_nat i) w2) as [[path|e] w3];
    reflexivity.
Qed.

Lemma main_loop_on_cons (disk : Disk) (i : nat) (prompt : string)
      (rest : list string) (w : World) :
  main_loop_on disk env self i (prompt :: rest) w
  = match main_item_on disk env self i prompt w with
    | (Returns _, w1) => main_loop_on disk env self (S i) rest w1
    | (Raises e, w1) => (Raises e, w1)
    end.
Proof. reflexivity. Qed.

(** One step of the loop. *)
Lemma main_loop_cons (i : nat) (prompt : string) (rest : list string) (w : World) :
  main_loop env self i (prompt :: rest) w
  = match main_item env self i prompt w with
    | (Returns _, w1) => main_loop env self (S i) rest w1
    | (Raises e, w1) => (Raises e, w1)
    end.
Proof. reflexivity. Qed.

End Batch.



(** ** Further properties of validation *)

Section ValidationFacts.

Variable env : Env.
Variable self : StrategyGenerator.

(** The report of the python branch has the verdict, the errors and the score
    of the three checks; pylint can only add its warning. *)
Lemma validate_python_fields (code : string) (w : World) :
  exists v w',
    validate_strategy env self code "python" w = (Returns v, w')
    /\ valid v = valid (python_checks code fresh_results)
    /\ errors v = errors (python_checks code fresh_results)
    /\ score v = score (python_checks code fresh_results)
    /\ files w' = delete (temp_file self) (files w)
    /\ reports w' = reports w.
Proof.
  destruct (try_pylint_run env self code (python_checks code fresh_results) w)
    as (w' & E & Hf & Hr).
  eexists; exists w'. split; [exact E|].
  destruct (lint_warns env self w code); cbn [append_warning valid errors score];
    auto.
Qed.

Lemma python_checks_error_list (code : string) :
  errors (python_checks code fresh_results)
  = ((if negb (contains "AlgorithmImports" code)
         && negb (contains "QCAlgorithm" code)
      then ["Missing QuantConnect imports"] else [])
     ++ (if negb (contains "def Initialize(" code)
         then ["Missing Initialize method"] else []))%list.
Proof. unfold python_checks. case_markers code; reflexivity. Qed.

Lemma csharp_checks_error_list (code : string) :
  errors (csharp_checks code fresh_results)
  = ((if negb (contains "QCAlgorithm" code)
      then ["Missing QCAlgorithm base class"] else [])
     ++ (if negb (contains "Initialize()" code)
         then ["Missing Initialize method"] else []))%list.
Proof.
  unfold csharp_checks.
  destruct (contains "QCAlgorithm" code), (contains "Initialize()" code);
    reflexivity.
Qed.

Lemma csharp_checks_valid (code : string) :
  valid (csharp_checks code fresh_results)
  = contains "QCAlgorithm" code && contains "Initialize()" code.
Proof.
  unfold csharp_checks.
  destruct (contains "QCAlgorithm" code), (contains "Initialize()" code);
    reflexivity.
Qed.

End ValidationFacts.

Lemma contains_inside (sub pre code post : string) :
  contains sub code = true -> contains sub (pre +:+ code +:+ post) = true.
Proof. intros H. apply contains_app_r, contains_app_l, H. Qed.


(** X1: [validate_strategy] does not stop at the first failed check. In the
    python branch the errors are, in this order, "Missing QuantConnect
    imports" when the source has neither "AlgorithmImports" nor "QCAlgorithm",
    and "Missing Initialize method" when it has no [def Initialize(]; in the
    csharp branch they are "Missing QCAlgorithm base class" when "QCAlgorithm"
    is absent and "Missing Initialize method" when "Initialize()" is absent.
    Neither pylint nor the storage has any part in the errors. *)
Theorem validate_lists_every_failed_check
  (env : Env) (self : StrategyGenerator) (code : string) (w : World) :
  (exists v w',
     validate_strategy env self code "python" w = (Returns v, w')
     /\ errors v
        = ((if negb (contains "AlgorithmImports" code)
               && negb (contains "QCAlgorithm" code)
            then ["Missing QuantConnect imports"] else [])
           ++ (if negb (contains "def Initialize(" code)
               then ["Missing Initialize method"] else []))%list)
  /\ (exists v,
        validate_strategy env self code "csharp" w = (Returns v, w)
        /\ warnings v = []
        /\ errors v
           = ((if negb (contains "QCAlgorithm" code)
               then ["Missing QCAlgorithm base class"] else [])
              ++ (if negb (contains "Initialize()" code)
                  then ["Missing Initialize method"] else []))%list).
Proof.
  split.
  - destruct (validate_python_fields env self code w)
      as (v & w' & E & _ & He & _).
    exists v, w'. split; [exact E|]. rewrite He. apply python_checks_error_list.
  - eexists. split; [reflexivity|].
    split; [apply csharp_checks_quiet | apply csharp_checks_error_list].
Qed.

(** X2: validation is monotone in the source. If a source is reported valid,
    so is every text that contains it (with anything put before and after),
    for the same language, and the score of the larger text is not lower.
    This holds whatever pylint, the clock and the storage do at the two
    calls. *)
Theorem validation_is_monotone
  (env1 env2 : Env) (self : StrategyGenerator)
  (pre code post lang : string) (w1 w2 w1' w2' : World) (v1 v2 : Validation) :
  validate_strategy env1 self code lang w1 = (Returns v1, w1') ->
  validate_strategy env2 self (pre +:+ code +:+ post) lang w2 = (Returns v2, w2') ->
  valid v1 = true ->
  valid v2 = true /\ errors v2 = [] /\ score v1 <= score v2.
Proof.
  intros E1 E2 Hv.
  destruct (String.eqb_spec lang "python") as [->|Hpy].
  - destruct (validate_python_fields env1 self code w1)
      as (u1 & ? & F1 & V1 & _ & S1 & _).
    destruct (validate_python_fields env2 self (pre +:+ code +:+ post) w2)
      as (u2 & ? & F2 & V2 & R2 & S2 & _).
    rewrite E1 in F1. rewrite E2 in F2.
    injection F1 as <- _. injection F2 as <- _.
    rewrite V1, python_checks_valid in Hv.
    rewrite V2, R2, S1, S2, python_checks_valid, python_checks_error_list,
      !python_checks_score.
    apply andb_true_iff in Hv as [Himp Hinit].
    rewrite (contains_inside _ pre code post Hinit).
    apply orb_true_iff in Himp as [Himp|Himp];
      rewrite (contains_inside _ pre code post Himp);
      rewrite ?orb_true_r; cbn [orb andb negb app];
      (destruct (contains "AlgorithmImports" (pre +:+ code +:+ post));
       destruct (contains "QCAlgorithm" (pre +:+ code +:+ post));
       cbn [orb andb negb app]);
      (split; [reflexivity|]); (split; [reflexivity|]);
      (destruct (contains "def OnData(" code) eqn:Hd;
       [rewrite (contains_inside _ pre code post Hd); lia
       |destruct (contains "def OnData(" (pre +:+ code +:+ post)); lia]).
  - unfold validate_strategy, validate_strategy_on in E1, E2.
    destruct (String.eqb_spec lang "python"); [contradiction|].
    destruct (String.eqb lang "csharp").
    + injection E1 as <- _. injection E2 as <- _.
      rewrite csharp_checks_valid in Hv.
      apply andb_true_iff in Hv as [Hq Hi].
      rewrite csharp_checks_valid, csharp_checks_error_list.
      rewrite (contains_inside _ pre code post Hq),
        (contains_inside _ pre code post Hi).
      split; [reflexivity|]. split; [reflexivity|].
      destruct (csharp_checks_quiet code) as [_ ->].
      destruct (csharp_checks_quiet (pre +:+ code +:+ post)) as [_ ->]. lia.
    + injection E1 as <- _. injection E2 as <- _. cbn. auto with zarith.
Qed.

Lemma validation_is_monotone_witness :
  exists v1 v2 w1' w2',
    validate_strategy Sample.quiet Sample.offline
      "class A(QCAlgorithm): def Initialize(self): pass" "python"
      Sample.empty_world = (Returns v1, w1')
    /\ validate_strategy Sample.linting Sample.offline
         ("# header " +:+ "class A(QCAlgorithm): def Initialize(self): pass"
          +:+ " def OnData(self, data): pass") "python"
         Sample.empty_world = (Returns v2, w2')
    /\ valid v1 = true
    /\ valid v2 = true /\ errors v2 = [] /\ score v1 <= score v2.
Proof.
  eexists; eexists; eexists; eexists.
  assert (H1 : validate_strategy Sample.quiet Sample.offline
                 "class A(QCAlgorithm): def Initialize(self): pass" "python"
                 Sample.empty_world
               = (Returns {| valid := true; errors := [];
                             warnings := ["Missing OnData method"];
                             score := 80 |},
                  tick (tick Sample.empty_world)))
    by (vm_compute; reflexivity).
  split; [exact H1|].
  split; [vm_compute; reflexivity|].
  split; [reflexivity|].
  refine (validation_is_monotone Sample.quiet Sample.linting Sample.offline
            "# header " "class A(QCAlgorithm): def Initialize(self): pass"
            " def OnData(self, data): pass" "python"
            Sample.empty_world Sample.empty_world _ _ _ _ H1 _ eq_refl).
  vm_compute; reflexivity.
Defined.

(** ** Further properties of the fallback generator *)

Lemma mock_csharp_markers (prompt : string) :
  let code := mock_csharp_head +:+ prompt +:+ mock_csharp_tail in
  contains "QCAlgorithm" code = true /\ contains "Initialize()" code = true.
Proof.
  cbv zeta. split; apply contains_app_r, contains_app_r; vm_compute; reflexivity.
Qed.

(** X3: every fallback strategy passes validation, in every language and
    whatever pylint does. For each prompt and language, the strategy that
    [_generate_mock_strategy] returns carries the language it was asked for,
    and [validate_strategy] on its code and language reports it valid, with
    no error and the score 100. (Asked for a language other than "python", the
    generator emits the C# template, which has both markers of the csharp
    checks.) *)
Theorem fallback_always_validates
  (env env' : Env) (self : StrategyGenerator) (prompt lang : string)
  (w w1 : World) :
  exists s v w2,
    _generate_mock_strategy env prompt lang w = (Returns s, tick w)
    /\ language s = lang
    /\ description s = prompt
    /\ validate_strategy env' self (code s) (language s) w1 = (Returns v, w2)
    /\ valid v = true
    /\ errors v = []
    /\ score v = 100.
Proof.
  rewrite mock_run.
  destruct (String.eqb_spec lang "python") as [->|Hpy].
  - destruct (validate_python_fields env' self
                (mock_python_head +:+ prompt +:+ mock_python_tail) w1)
      as (v & w2 & E & Hv & He & Hs & _).
    destruct (mock_python_markers prompt) as (Himp & Hinit & Hdata).
    eexists; exists v, w2. split; [reflexivity|].
    split; [reflexivity|]. split; [reflexivity|].
    cbn [code language]. split; [exact E|].
    rewrite Hv, He, Hs, python_checks_valid, python_checks_error_list,
      python_checks_score, Himp, Hinit, Hdata. auto.
  - destruct (mock_csharp_markers prompt) as (Hq & Hi).
    destruct (validate_strategy_run env' self
                (mock_csharp_head +:+ prompt +:+ mock_csharp_tail) lang w1)
      as (v & w2 & E & _ & [(? & _) | [(_ & _ & -> & _) | (_ & _ & -> & _)]]);
      [contradiction| |];
      eexists; eexists; exists w2;
      (split; [reflexivity|]); (split; [reflexivity|]); (split; [reflexivity|]);
      cbn [code language]; (split; [exact E|]).
    + rewrite csharp_checks_valid, csharp_checks_error_list, Hq, Hi.
      destruct (csharp_checks_quiet
                  (mock_csharp_head +:+ prompt +:+ mock_csharp_tail)) as [_ ->].
      auto.
    + auto.
Qed.

(** X4: the fallback source carries the prompt verbatim, in both templates:
    the code of the strategy [_generate_mock_strategy] returns contains the
    prompt as a substring, and its description is the prompt. *)
Theorem fallback_embeds_prompt
  (env : Env) (prompt lang : string) (w : World) :
  exists s,
    _generate_mock_strategy env prompt lang w = (Returns s, tick w)
    /\ contains prompt (code s) = true
    /\ description s = prompt.
Proof.
  rewrite mock_run. eexists. split; [reflexivity|]. cbn [code description].
  split; [|reflexivity].
  destruct (String.eqb lang "python");
    apply contains_app_r, contains_app_l, contains_prefix, prefix_refl.
Qed.


(** ** The clean-up of fenced replies *)

Section Fences.


(** The parts of a text with one fence, closed or not: what is before the
    fence, what is inside, and whatever follows. *)
Lemma split_fenced (pre inner closing : string) :
  lacks backtick pre = true ->
  lacks backtick inner = true ->
  closes_fence closing ->
  exists ps,
    split (pre +:+ "```" +:+ inner +:+ closing) "```" = pre :: inner :: ps.
Proof.
  intros Hpre Hinner Hclose. unfold split.
  change "```" with (String backtick "``").
  rewrite (split_from_first backtick "``" pre (inner +:+ closing) Hpre).
  destruct Hclose as [->|(post & ->)].
  - rewrite append_empty_r, (split_from_lacks backtick "``" inner Hinner). eauto.
  - change "```" with (String backtick "``").
    rewrite (split_from_first backtick "``" inner post Hinner).
    destruct (split_from (String backtick "``") 0 post). eauto.
Qed.

Lemma contains_fence (pre rest : string) :
  contains "```" (pre +:+ "```" +:+ rest) = true.
Proof.
  apply contains_app_r, contains_prefix.
  apply (prefix_app "```" "```" rest). reflexivity.
Qed.

(** The clean-up on a text with one fence. *)
Lemma clean_fenced (pre inner closing : string) (w : World) :
  lacks backtick pre = true ->
  lacks backtick inner = true ->
  closes_fence closing ->
  clean_code_blocks (pre +:+ "```" +:+ inner +:+ closing) w
  = (Returns (if startswith inner "python" || startswith inner "csharp"
              then join nl (tail (split inner nl))
              else inner), w).
Proof.
  intros Hpre Hinner Hclose. unfold clean_code_blocks.
  rewrite contains_fence.
  destruct (split_fenced pre inner closing Hpre Hinner Hclose) as (ps & ->).
  unfold bind, index. cbn [lookup list_lookup]. unfold ret at 1.
  destruct (startswith inner "python" || startswith inner "csharp");
    reflexivity.
Qed.

(** What [generate_strategy] returns when the service replies with a text. *)
Lemma generate_from_reply
  (env : Env) (self : StrategyGenerator) (c : Client)
  (prompt lang text cleaned : string) (rest : list ContentBlock) (w : World) :
  client self = Some c ->
  c (time w) (strategy_request prompt lang) = Message (TextBlock text :: rest) ->
  clean_code_blocks text (tick w) = (Returns cleaned, tick w) ->
  generate_strategy env self prompt lang w
  = (Returns {| code := strip cleaned;
                description := prompt;
                language := lang;
                timestamp := datetime_now env (S (time w)) |},
     tick (tick w)).
Proof.
  intros Hc Hreply Hclean. unfold generate_strategy, try_except. rewrite Hc.
  pose proof (request_strategy_run env c prompt lang w) as H.
  rewrite Hreply in H. destruct H as (cleaned' & Hclean' & ->).
  rewrite Hclean in Hclean'. injection Hclean' as <-. reflexivity.
Qed.

End Fences.

(** X5: a reply that wraps the code in a fence with a language tag is
    unwrapped. When the text of the reply is some prose, the fence, a first
    line that starts with "python" or "csharp", a line feed, the body, and
    then either nothing or the closing fence with anything after it, and when
    no back tick occurs in the prose, the tag line and the body, then the code
    [generate_strategy] returns is the body, stripped: the prose, the tag line
    and whatever follows the closing fence are dropped. *)
Theorem tagged_fence_is_unwrapped
  (env : Env) (self : StrategyGenerator) (c : Client)
  (prompt lang pre tagline body closing : string)
  (rest : list ContentBlock) (w : World) :
  client self = Some c ->
  c (time w) (strategy_request prompt lang)
  = Message (TextBlock (pre +:+ "```" +:+ tagline +:+ nl +:+ body +:+ closing)
             :: rest) ->
  lacks backtick pre = true ->
  lacks backtick tagline = true ->
  lacks linefeed tagline = true ->
  lacks backtick body = true ->
  startswith tagline "python" || startswith tagline "csharp" = true ->
  closes_fence closing ->
  exists s w',
    generate_strategy env self prompt lang w = (Returns s, w')
    /\ code s = strip body.
Proof.
  intros Hc Hreply Hpre Htag Hline Hbody Hstarts Hclose.
  assert (lacks backtick (tagline +:+ nl +:+ body) = true) as Hinner.
  { rewrite !lacks_app, Htag, Hbody. reflexivity. }
  pose proof (clean_fenced pre (tagline +:+ nl +:+ body) closing (tick w)
                Hpre Hinner Hclose) as Hclean.
  rewrite !append_assoc in Hclean.
  assert (startswith (tagline +:+ nl +:+ body) "python"
          || startswith (tagline +:+ nl +:+ body) "csharp" = true) as Hstarts'.
  { unfold startswith in *.
    apply orb_true_iff in Hstarts as [H|H];
      rewrite (prefix_app _ tagline (nl +:+ body) H); auto using orb_true_r. }
  rewrite Hstarts' in Hclean.
  assert (join nl (tail (split (tagline +:+ nl +:+ body) nl)) = body) as Hjoin.
  { unfold split. change nl with (String linefeed "").
    rewrite (split_from_first linefeed "" tagline body Hline).
    cbn [tail]. apply join_split_nl. }
  rewrite Hjoin in Hclean.
  eexists; eexists. split.
  - apply (generate_from_reply env self c prompt lang _ body rest w Hc Hreply Hclean).
  - reflexivity.
Qed.

Lemma tagged_fence_is_unwrapped_witness :
  exists s w',
    generate_strategy Sample.quiet (init (Some Replies.fenced) (Some "key"))
      "a prompt" "python" Sample.empty_world = (Returns s, w')
    /\ code s = strip ("class A(QCAlgorithm): pass" +:+ nl).
Proof.
  apply (tagged_fence_is_unwrapped Sample.quiet
           (init (Some Replies.fenced) (Some "key")) Replies.fenced
           "a prompt" "python"
           ("Here is the strategy:" +:+ nl) "python"
           ("class A(QCAlgorithm): pass" +:+ nl)
           ("```" +:+ nl +:+ "Good luck!") [] Sample.empty_world);
    try reflexivity.
  right. exists (nl +:+ "Good luck!"). reflexivity.
Defined.

(** X6: a fence without a language tag keeps everything inside it. When the
    text of the reply is some prose, the fence, and an inner text that starts
    with neither "python" nor "csharp", followed by nothing or by the closing
    fence with anything after it, and no back tick occurs in the prose and
    the inner text, the code returned is the inner text, stripped. An
    unclosed fence is treated like a closed one. *)
Theorem untagged_fence_keeps_inner
  (env : Env) (self : StrategyGenerator) (c : Client)
  (prompt lang pre inner closing : string)
  (rest : list ContentBlock) (w : World) :
  client self = Some c ->
  c (time w) (strategy_request prompt lang)
  = Message (TextBlock (pre +:+ "```" +:+ inner +:+ closing) :: rest) ->
  lacks backtick pre = true ->
  lacks backtick inner = true ->
  startswith inner "python" || startswith inner "csharp" = false ->
  closes_fence closing ->
  exists s w',
    generate_strategy env self prompt lang w = (Returns s, w')
    /\ code s = strip inner.
Proof.
  intros Hc Hreply Hpre Hinner Hstarts Hclose.
  pose proof (clean_fenced pre inner closing (tick w) Hpre Hinner Hclose)
    as Hclean.
  rewrite Hstarts in Hclean.
  eexists; eexists. split.
  - apply (generate_from_reply env self c prompt lang _ inner rest w Hc Hreply Hclean).
  - reflexivity.
Qed.

Lemma untagged_fence_keeps_inner_witness :
  exists s w',
    generate_strategy Sample.quiet (init (Some Replies.untagged) (Some "key"))
      "a prompt" "python" Sample.empty_world = (Returns s, w')
    /\ code s = strip (nl +:+ "x = 1").
Proof.
  apply (untagged_fence_keeps_inner Sample.quiet
           (init (Some Replies.untagged) (Some "key")) Replies.untagged
           "a prompt" "python" "" (nl +:+ "x = 1") "" [] Sample.empty_world);
    try reflexivity.
  left. reflexivity.
Defined.

(** X7: fenced code of one line that starts with the word of the language is
    lost. When the inner text of the fence starts with "python" or "csharp"
    and has no line feed (and no back tick occurs in it or in the prose
    before the fence), the whole inner text is taken for a tag line and
    dropped: [generate_strategy] returns, without raising and without falling
    back, a strategy whose code is empty. *)
Theorem one_line_fence_is_emptied
  (env : Env) (self : StrategyGenerator) (c : Client)
  (prompt lang pre inner closing : string)
  (rest : list ContentBlock) (w : World) :
  client self = Some c ->
  c (time w) (strategy_request prompt lang)
  = Message (TextBlock (pre +:+ "```" +:+ inner +:+ closing) :: rest) ->
  lacks backtick pre = true ->
  lacks backtick inner = true ->
  lacks linefeed inner = true ->
  startswith inner "python" || startswith inner "csharp" = true ->
  closes_fence closing ->
  exists s w',
    generate_strategy env self prompt lang w = (Returns s, w')
    /\ code s = "".
Proof.
  intros Hc Hreply Hpre Hinner Hline Hstarts Hclose.
  pose proof (clean_fenced pre inner closing (tick w) Hpre Hinner Hclose)
    as Hclean.
  rewrite Hstarts in Hclean.
  assert (split inner nl = [inner]) as Hsplit.
  { unfold split. change nl with (String linefeed "").
    rewrite (split_from_lacks linefeed "" inner Hline). reflexivity. }
  rewrite Hsplit in Hclean. cbn [tail join] in Hclean.
  eexists; eexists. split.
  - apply (generate_from_reply env self c prompt lang _ "" rest w Hc Hreply Hclean).
  - reflexivity.
Qed.

Lemma one_line_fence_is_emptied_witness :
  exists s w',
    generate_strategy Sample.quiet (init (Some Replies.one_line) (Some "key"))
      "a prompt" "python" Sample.empty_world = (Returns s, w')
    /\ code s = "".
Proof.
  apply (one_line_fence_is_emptied Sample.quiet
           (init (Some Replies.one_line) (Some "key")) Replies.one_line
           "a prompt" "python" "" "python_version = 3" "```" [] Sample.empty_world);
    try reflexivity.
  right. exists "". reflexivity.
Defined.

(** X8: code that comes from the service is trimmed. Whenever a client is
    configured and its reply starts with a text block, the code of the
    strategy [generate_strategy] returns has no white space at either end:
    stripping it on the left or on the right changes nothing. (The fallback
    template, which ends with a line feed, is not trimmed.) *)
Theorem service_code_is_trimmed
  (env : Env) (self : StrategyGenerator) (c : Client)
  (prompt lang text : string) (rest : list ContentBlock) (w : World) :
  client self = Some c ->
  c (time w) (strategy_request prompt lang) = Message (TextBlock text :: rest) ->
  exists s w',
    generate_strategy env self prompt lang w = (Returns s, w')
    /\ lstrip (code s) = code s
    /\ rstrip (code s) = code s.
Proof.
  intros Hc Hreply.
  destruct (clean_code_blocks_returns text (tick w)) as (cleaned & Hclean).
  eexists; eexists. split.
  - apply (generate_from_reply env self c prompt lang text cleaned rest w
             Hc Hreply Hclean).
  - apply strip_stable.
Qed.

Lemma service_code_is_trimmed_witness :
  exists s w',
    generate_strategy Sample.quiet (init (Some Replies.padded) (Some "key"))
      "a prompt" "python" Sample.empty_world = (Returns s, w')
    /\ lstrip (code s) = code s
    /\ rstrip (code s) = code s.
Proof.
  apply (service_code_is_trimmed Sample.quiet
           (init (Some Replies.padded) (Some "key")) Replies.padded
           "a prompt" "python" ("  x = 1 " +:+ nl) [] Sample.empty_world);
    reflexivity.
Defined.

(** ** Further properties of persistence *)

Section PersistenceFacts.

Variable env : Env.
Variable self : StrategyGenerator.

(** Whatever its outcome, [save_strategy] touches the source path and the
    sidecar path only. *)
Lemma save_strategy_frame (strategy : Strategy) (filename : string)
      (w w' : World) (r : Result string) (other : string) :
  save_strategy env self strategy filename w = (r, w') ->
  other <> path_join (output_dir self)
             (filename +:+ "." +:+
              (if String.eqb (language strategy) "python" then "py" else "cs")) ->
  other <> path_join (output_dir self) (filename +:+ ".json") ->
  files w' !! other = files w !! other.
Proof.
  unfold save_strategy, bind, write_text. intros E H1 H2. revert E.
  destruct (storage env (time w) _ (code strategy));
    cbn [time tick set_files files reports].
  - destruct (storage env (S (time w)) _ _);
      cbn [time tick set_files files reports];
      intros [= _ <-]; cbn [files tick set_files];
      rewrite ?lookup_insert_ne by congruence; reflexivity.
  - intros [= _ <-]. reflexivity.
  - intros [= _ <-]. cbn [files tick set_files].
    rewrite lookup_insert_ne by congruence. reflexivity.
Qed.

End PersistenceFacts.



(** X10: saving twice under one name stem overwrites without notice. On a
    storage that accepts the writes, after [save_strategy] of a first and then
    of a second strategy with the same stem, the source path of the second
    holds the code of the second and the one sidecar describes the second
    only. When the two source paths differ (one strategy is python and the
    other is not), the source file of the first is still there, with no
    sidecar recording it. *)
Theorem second_save_overwrites
  (env : Env) (self : StrategyGenerator)
  (first second : Strategy) (filename : string) (w : World) :
  storage_accepts env ->
  exists path1 path2 w1 w2,
    save_strategy env self first filename w = (Returns path1, w1)
    /\ save_strategy env self second filename w1 = (Returns path2, w2)
    /\ files w2 !! path2 = Some (code second)
    /\ files w2 !! path_join (output_dir self) (filename +:+ ".json")
       = Some (Json.dumps [("description", description second);
                           ("language", language second);
                           ("timestamp", timestamp second);
                           ("filename", path2)])
    /\ (path1 <> path2 -> files w2 !! path1 = Some (code first)).
Proof.
  intros Hok.
  pose proof (source_is_not_sidecar (output_dir self) filename (language first))
    as Hne1.
  pose proof (source_is_not_sidecar (output_dir self) filename (language second))
    as Hne2.
  eexists; eexists; eexists; eexists.
  split; [apply save_strategy_run; apply Hok|].
  split; [apply save_strategy_run; apply Hok|].
  cbn [files].
  split; [rewrite lookup_insert_ne by congruence; apply lookup_insert_eq|].
  split; [apply lookup_insert_eq|].
  intros Hdiff.
  rewrite lookup_insert_ne by congruence.
  rewrite lookup_insert_ne by congruence.
  rewrite lookup_insert_ne by congruence.
  apply lookup_insert_eq.
Qed.

Lemma second_save_overwrites_witness :
  exists path1 path2 w1 w2,
    save_strategy Sample.quiet Sample.offline
      {| code := "first"; description := "one";
         language := "python"; timestamp := "t1" |}
      "strategy_1" Sample.empty_world = (Returns path1, w1)
    /\ save_strategy Sample.quiet Sample.offline
         {| code := "second"; description := "two";
            language := "csharp"; timestamp := "t2" |}
         "strategy_1" w1 = (Returns path2, w2)
    /\ files w2 !! path2 = Some "second"
    /\ files w2 !! path_join (output_dir Sample.offline) ("strategy_1" +:+ ".json")
       = Some (Json.dumps [("description", "two"); ("language", "csharp");
                           ("timestamp", "t2"); ("filename", path2)])
    /\ (path1 <> path2 -> files w2 !! path1 = Some "first").
Proof.
  apply (second_save_overwrites Sample.quiet Sample.offline
           {| code := "first"; description := "one";
              language := "python"; timestamp := "t1" |}
           {| code := "second"; description := "two";
              language := "csharp"; timestamp := "t2" |}
           "strategy_1" Sample.empty_world quiet_storage_accepts).
Defined.

(** X11: the name stem "temp_validate" collides with the scratch file of
    validation. A python strategy saved under that stem is written to the very
    path [validate_strategy] uses for pylint, so the next validation of any
    python source removes the saved source file. *)
Theorem validation_removes_temp_validate
  (env : Env) (self : StrategyGenerator)
  (strategy : Strategy) (code' : string) (w : World) :
  storage_accepts env ->
  language strategy = "python" ->
  exists path w1 v w2,
    save_strategy env self strategy "temp_validate" w = (Returns path, w1)
    /\ files w1 !! path = Some (code strategy)
    /\ validate_strategy env self code' "python" w1 = (Returns v, w2)
    /\ files w2 !! path = None.
Proof.
  intros Hok Hlang.
  pose proof (source_is_not_sidecar (output_dir self) "temp_validate"
                (language strategy)) as Hne.
  destruct (validate_python_fields env self code'
              {| files := <[path_join (output_dir self) ("temp_validate" +:+ ".json")
                            := Json.dumps [("description", description strategy);
                                           ("language", language strategy);
                                           ("timestamp", timestamp strategy);
                                           ("filename",
                                             path_join (output_dir self)
                                               ("temp_validate" +:+ "." +:+
                                                (if String.eqb (language strategy) "python"
                                                 then "py" else "cs")))]]>
                             (<[path_join (output_dir self)
                                  ("temp_validate" +:+ "." +:+
                                   (if String.eqb (language strategy) "python"
                                    then "py" else "cs"))
                                := code strategy]> (files w));
                 time := S (S (time w));
                 reports := reports w |})
    as (v & w2 & E & _ & _ & _ & Hf & _).
  eexists; eexists; exists v, w2.
  split; [apply save_strategy_run; apply Hok|].
  cbn [files] in *.
  split; [rewrite lookup_insert_ne by congruence; apply lookup_insert_eq|].
  split; [exact E|].
  rewrite Hf, Hlang. apply lookup_delete_eq.
Qed.

Lemma validation_removes_temp_validate_witness :
  exists path w1 v w2,
    save_strategy Sample.quiet Sample.offline
      {| code := "class A(QCAlgorithm): pass"; description := "a prompt";
         language := "python"; timestamp := "2024-01-01T00:00:00" |}
      "temp_validate" Sample.empty_world = (Returns path, w1)
    /\ files w1 !! path = Some "class A(QCAlgorithm): pass"
    /\ validate_strategy Sample.quiet Sample.offline "x = 1" "python" w1
       = (Returns v, w2)
    /\ files w2 !! path = None.
Proof.
  apply (validation_removes_temp_validate Sample.quiet Sample.offline
           {| code := "class A(QCAlgorithm): pass"; description := "a prompt";
              language := "python"; timestamp := "2024-01-01T00:00:00" |}
           "x = 1" Sample.empty_world quiet_storage_accepts eq_refl).
Defined.

(** ** Further properties of the batch loop *)

Section BatchFacts.

Variable env : Env.
Variable self : StrategyGenerator.

(** Generation returns a strategy of the language asked for, and touches
    neither the files nor the reports. *)
Lemma generate_strategy_effect (prompt lang : string) (w : World) :
  exists s w',
    generate_strategy env self prompt lang w = (Returns s, w')
    /\ language s = lang
    /\ files w' = files w
    /\ reports w' = reports w.
Proof.
  unfold generate_strategy. destruct (client self) as [c|].
  - pose proof (request_strategy_run env c prompt lang w) as H.
    unfold try_except.
    destruct (c (time w) (strategy_request prompt lang))
      as [e|[|[text|] rest]].
    1, 2, 4: destruct H as (e' & ->); rewrite mock_run;
      eexists; eexists; split; [reflexivity | auto].
    destruct H as (cleaned & _ & ->).
    eexists; eexists; split; [reflexivity | auto].
  - rewrite mock_run. eexists; eexists; split; [reflexivity | auto].
Qed.

Lemma temp_is_no_strategy_file (i : nat) (suffix : string) :
  lacks "/" suffix = true ->
  temp_file self
  <> path_join (output_dir self) (("strategy_" +:+ of_nat i) +:+ suffix).
Proof.
  unfold temp_file. intros Hs H.
  rewrite (strategy_path _ i suffix Hs) in H.
  rewrite path_join_simple in H by reflexivity.
  apply app_inv_head in H. discriminate.
Qed.

(** One turn of the loop ends with no scratch file, and has touched nothing
    but the scratch file and the two files of its number; if it reports a
    rejection it has written nothing at all. *)
Lemma main_item_effect (i : nat) (prompt : string) (w : World) :
  exists r w',
    main_item env self i prompt w = (r, w')
    /\ files w' !! temp_file self = None
    /\ (forall other,
          other <> temp_file self ->
          other <> source_path self i ->
          other <> sidecar_path self i ->
          files w' !! other = files w !! other)
    /\ (forall errs,
          reports w' = (reports w ++ [Rejected errs])%list ->
          r = Returns tt /\ files w' = delete (temp_file self) (files w)).
Proof.
  destruct (generate_strategy_effect prompt "python" w)
    as (s & w1 & E1 & Hlang & F1 & R1).
  destruct (validate_python_fields env self (code s) w1)
    as (v & w2 & E2' & _ & _ & _ & F2 & R2).
  assert (validate_strategy env self (code s) (language s) w1 = (Returns v, w2))
    as E2 by (rewrite Hlang; exact E2').
  rewrite (main_item_run env self i prompt w w1 w2 s v E1 E2).
  assert (files w2 !! temp_file self = None) as Hgone
    by (rewrite F2; apply lookup_delete_eq).
  assert (forall other, other <> temp_file self ->
            files w2 !! other = files w !! other) as Hkept.
  { intros other Hne. rewrite F2, F1. apply lookup_delete_ne. congruence. }
  destruct (valid v).
  - destruct (save_strategy env self s ("strategy_" +:+ of_nat i) w2)
      as [[path|e] w3] eqn:E3;
      pose proof (fun other =>
                    save_strategy_frame env self s _ w2 w3 _ other E3) as Hframe;
      rewrite Hlang in Hframe;
      pose proof (save_strategy_reports env self _ _ _ _ _ E3) as R3.
    + eexists; eexists. split; [reflexivity|]. cbn [printed files reports].
      split; [rewrite Hframe; auto using temp_is_no_strategy_file|].
      split; [intros other H1 H2 H3; rewrite Hframe; auto|].
      intros errs Hrep. exfalso.
      rewrite R3, R2, R1 in Hrep. apply List.app_inv_head in Hrep.
      discriminate.
    + eexists; eexists. split; [reflexivity|].
      split; [rewrite Hframe; auto using temp_is_no_strategy_file|].
      split; [intros other H1 H2 H3; rewrite Hframe; auto|].
      intros errs Hrep. exfalso.
      rewrite R3, R2, R1 in Hrep.
      apply (f_equal (@List.length Outcome)) in Hrep.
      rewrite length_app in Hrep. cbn in Hrep. lia.
  - eexists; eexists. split; [reflexivity|]. cbn [printed files reports].
    split; [exact Hgone|]. split; [auto|].
    intros errs _. split; [reflexivity|]. rewrite F2, F1. reflexivity.
Qed.

End BatchFacts.

(** X12: a prompt that [main] reports as rejected has written nothing.
    Whenever one turn of the loop ends with a rejection as the newest report,
    the turn returned (it did not raise) and the file system is exactly as
    the turn found it, less the scratch file of validation. *)
Theorem rejected_item_writes_nothing
  (env : Env) (self : StrategyGenerator)
  (i : nat) (prompt : string) (w w' : World) (r : Result unit)
  (errs : list string) :
  main_item env self i prompt w = (r, w') ->
  reports w' = (reports w ++ [Rejected errs])%list ->
  r = Returns tt /\ files w' = delete (temp_file self) (files w).
Proof.
  intros E Hrep.
  destruct (main_item_effect env self i prompt w) as (r0 & w0 & E0 & _ & _ & H).
  rewrite E in E0. injection E0 as <- <-. exact (H errs Hrep).
Qed.

Lemma rejected_item_writes_nothing_witness :
  exists r w',
    main_item Sample.quiet (init (Some Sample.careless_service) (Some "key"))
      1 "a prompt" Sample.empty_world = (r, w')
    /\ reports w'
       = (reports Sample.empty_world
          ++ [Rejected ["Missing QuantConnect imports";
                        "Missing Initialize method"]])%list
    /\ r = Returns tt
    /\ files w'
       = delete (temp_file (init (Some Sample.careless_service) (Some "key")))
                (files Sample.empty_world).
Proof.
  eexists; eexists.
  assert (E : main_item Sample.quiet
                (init (Some Sample.careless_service) (Some "key"))
                1 "a prompt" Sample.empty_world
              = (Returns tt,
                 {| files := ∅; time := 4;
                    reports := [Rejected ["Missing QuantConnect imports";
                                          "Missing Initialize method"]] |}))
    by (vm_compute; reflexivity).
  split; [exact E|]. split; [reflexivity|].
  exact (rejected_item_writes_nothing _ _ _ _ _ _ _ _ E eq_refl).
Defined.

(** The loop touches no file but the scratch file and the files of the
    numbers it goes through. *)
Lemma main_loop_frame
  (env : Env) (self : StrategyGenerator)
  (prompts : list string) (i : nat) (w w' : World) (r : Result unit)
  (other : string) :
  main_loop env self i prompts w = (r, w') ->
  other <> temp_file self ->
  (forall j, (i <= j < i + List.length prompts)%nat ->
             other <> source_path self j /\ other <> sidecar_path self j) ->
  files w' !! other = files w !! other.
Proof.
  revert i w. induction prompts as [|prompt rest IH]; intros i w E Htemp Hown.
  - injection E as _ <-. reflexivity.
  - rewrite main_loop_cons in E.
    destruct (main_item_effect env self i prompt w)
      as (r1 & w1 & E1 & _ & Hframe & _).
    rewrite E1 in E.
    assert (files w1 !! other = files w !! other) as H1.
    { apply Hframe; [exact Htemp | |]; apply Hown; cbn [List.length]; lia. }
    destruct r1 as [[]|e].
    + rewrite <- H1. apply (IH (S i) w1 E Htemp).
      intros j Hj. apply Hown. cbn [List.length]. lia.
    + injection E as _ <-. exact H1.
Qed.

(** X13: the batch touches no file but its own. Whatever the service, pylint
    and the storage do, and whether the loop returns or is ended by an
    exception, a path other than the scratch file of validation and other
    than the source file and the sidecar of each prompt of the batch (the
    prompt at position [k] has the number [i + k]) holds after the loop what
    it held before. *)
Theorem main_loop_touches_only_its_files
  (env : Env) (self : StrategyGenerator)
  (prompts : list string) (i : nat) (w w' : World) (r : Result unit)
  (other : string) :
  main_loop env self i prompts w = (r, w') ->
  other <> temp_file self ->
  (forall k prompt, prompts !! k = Some prompt ->
     other <> source_path self (i + k) /\ other <> sidecar_path self (i + k)) ->
  files w' !! other = files w !! other.
Proof.
  intros E Htemp Hown. apply (main_loop_frame env self prompts i w w' r other E Htemp).
  intros j Hj.
  destruct (lookup_lt_is_Some_2 prompts (j - i)) as [prompt Hk]; [lia|].
  replace j with (i + (j - i))%nat by lia. exact (Hown _ _ Hk).
Qed.

Lemma main_loop_touches_only_its_files_witness :
  exists r w',
    main_loop Sample.quiet Sample.offline 1 main_prompts
      {| files := {[ "/app/generated/notes.txt" := "keep" ]};
         time := 0; reports := [] |} = (r, w')
    /\ files w' !! "/app/generated/notes.txt" = Some "keep".
Proof.
  destruct (main_loop Sample.quiet Sample.offline 1 main_prompts
              {| files := {[ "/app/generated/notes.txt" := "keep" ]};
                 time := 0; reports := [] |}) as [r w'] eqn:E.
  exists r, w'. split; [reflexivity|].
  rewrite (main_loop_touches_only_its_files _ _ _ _ _ _ _
             "/app/generated/notes.txt" E).
  - reflexivity.
  - discriminate.
  - intros k prompt _. unfold source_path, sidecar_path.
    rewrite !strategy_path by reflexivity.
    change (PosixPath.prefix_of (output_dir Sample.offline))
      with "/app/generated/".
    change "/app/generated/notes.txt" with ("/app/generated/" +:+ "notes.txt").
    split; intros H; apply app_inv_head in H; discriminate.
Defined.

(** X14: the batch never leaves the scratch file of validation behind. After
    the loop over at least one prompt, whether it returned or was ended by an
    exception of [save_strategy], the path of the scratch file holds
    nothing. *)
Theorem main_loop_leaves_no_temp_file
  (env : Env) (self : StrategyGenerator)
  (prompts : list string) (i : nat) (w w' : World) (r : Result unit) :
  prompts <> [] ->
  main_loop env self i prompts w = (r, w') ->
  files w' !! temp_file self = None.
Proof.
  revert i w. induction prompts as [|prompt rest IH]; intros i w Hne E;
    [contradiction|].
  rewrite main_loop_cons in E.
  destruct (main_item_effect env self i prompt w)
    as (r1 & w1 & E1 & Hgone & _ & _).
  rewrite E1 in E. destruct r1 as [[]|e].
  - destruct rest as [|next rest'].
    + injection E as _ <-. exact Hgone.
    + apply (IH (S i) w1); [discriminate | exact E].
  - injection E as _ <-. exact Hgone.
Qed.

Lemma main_loop_leaves_no_temp_file_witness :
  exists r w',
    main_loop Sample.first_save_fails Sample.offline 1 main_prompts
      {| files := {[ "/app/generated/temp_validate.py" := "stale" ]};
         time := 0; reports := [] |} = (r, w')
    /\ files w' !! temp_file Sample.offline = None.
Proof.
  destruct (main_loop Sample.first_save_fails Sample.offline 1 main_prompts
              {| files := {[ "/app/generated/temp_validate.py" := "stale" ]};
                 time := 0; reports := [] |}) as [r w'] eqn:E.
  exists r, w'. split; [reflexivity|].
  assert (main_prompts <> []) as Hne by (unfold main_prompts; discriminate).
  apply (main_loop_leaves_no_temp_file _ _ _ _ _ _ _ Hne E).
Defined.

(** ** The batch without a generation service *)

Section Names.





Variable self : StrategyGenerator.

Lemma strategy_name_inj (i j : nat) (x y : string) :
  lacks "/" x = true ->
  lacks "/" y = true ->
  path_join (output_dir self) (("strategy_" +:+ of_nat i) +:+ x)
  = path_join (output_dir self) (("strategy_" +:+ of_nat j) +:+ y) ->
  of_nat i +:+ x = of_nat j +:+ y.
Proof.
  intros Hx Hy H. rewrite !strategy_path in H by assumption.
  apply app_inv_head in H.
  rewrite !append_assoc in H. apply (app_inv_head "strategy_") in H. exact H.
Qed.

Lemma source_path_inj (i j : nat) :
  source_path self i = source_path self j -> i = j.
Proof.
  intros H. apply strategy_name_inj in H; [|reflexivity|reflexivity].
  apply app_inv_tail, of_nat_inj in H. exact H.
Qed.

Lemma sidecar_path_inj (i j : nat) :
  sidecar_path self i = sidecar_path self j -> i = j.
Proof.
  intros H. apply strategy_name_inj in H; [|reflexivity|reflexivity].
  apply app_inv_tail, of_nat_inj in H. exact H.
Qed.

Lemma source_is_no_sidecar (i j : nat) :
  source_path self i <> sidecar_path self j.
Proof.
  intros H. apply strategy_name_inj in H; [|reflexivity|reflexivity].
  apply (f_equal (fun s => last_char s " "%char)) in H.
  change ".py" with (String "."%char "py") in H.
  change ".json" with (String "."%char "json") in H.
  rewrite !last_char_app in H. discriminate.
Qed.

End Names.

Section Offline.

Variable env : Env.
Variable self : StrategyGenerator.
Hypothesis no_client : client self = None.
Hypothesis storage_ok : storage_accepts env.

(** One turn of the loop, when the fallback generates and the storage
    accepts. *)
Lemma offline_item (i : nat) (prompt : string) (w : World) :
  exists w' stamp,
    main_item env self i prompt w = (Returns tt, w')
    /\ reports w' = (reports w ++ [Saved (source_path self i) 100])%list
    /\ files w'
       = <[sidecar_path self i
           := Json.dumps [("description", prompt);
                          ("language", "python");
                          ("timestamp", stamp);
                          ("filename", source_path self i)]]>
           (<[source_path self i
              := mock_python_head +:+ prompt +:+ mock_python_tail]>
              (delete (temp_file self) (files w))).
Proof.
  assert (generate_strategy env self prompt "python" w
          = (Returns {| code := mock_python_head +:+ prompt +:+ mock_python_tail;
                        description := prompt;
                        language := "python";
                        timestamp := datetime_now env (time w) |}, tick w))
    as E1.
  { unfold generate_strategy. rewrite no_client. apply mock_run. }
  destruct (validate_python_fields env self
              (mock_python_head +:+ prompt +:+ mock_python_tail) (tick w))
    as (v & w2 & E2 & Hv & _ & Hs & F2 & R2).
  destruct (mock_python_markers prompt) as (Himp & Hinit & Hdata).
  rewrite python_checks_valid, Himp, Hinit in Hv.
  rewrite python_checks_score, Hdata in Hs.
  rewrite (main_item_run env self i prompt w (tick w) w2 _ v E1 E2), Hv, Hs.
  rewrite save_strategy_run by apply storage_ok.
  eexists; exists (datetime_now env (time w)). split; [reflexivity|].
  cbn [printed reports files language code description timestamp].
  rewrite R2, F2. split; reflexivity.
Qed.

End Offline.




(** X16: the sidecar is an unambiguous record of what was saved. If two calls
    of [save_strategy], on storages that accept the writes, leave sidecars
    with the same text, then they saved strategies with the same description,
    the same language and the same timestamp, to the same source path. This
    is stated of fields made of the code points 0 to 255, the strings of
    this development: among them quotes, backslashes, line breaks and other
    control characters are escaped so that the text can be read back in one
    way only. *)
Theorem sidecar_determines_strategy
  (env1 env2 : Env) (self1 self2 : StrategyGenerator)
  (s1 s2 : Strategy) (stem1 stem2 path1 path2 : string) (w1 w2 w1' w2' : World) :
  storage_accepts env1 ->
  storage_accepts env2 ->
  save_strategy env1 self1 s1 stem1 w1 = (Returns path1, w1') ->
  save_strategy env2 self2 s2 stem2 w2 = (Returns path2, w2') ->
  files w1' !! path_join (output_dir self1) (stem1 +:+ ".json")
  = files w2' !! path_join (output_dir self2) (stem2 +:+ ".json") ->
  description s1 = description s2
  /\ language s1 = language s2
  /\ timestamp s1 = timestamp s2
  /\ path1 = path2.
Proof.
  intros Hok1 Hok2 E1 E2 Hsame.
  rewrite save_strategy_run in E1 by apply Hok1.
  rewrite save_strategy_run in E2 by apply Hok2.
  injection E1 as <- <-. injection E2 as <- <-.
  cbn [files] in Hsame. rewrite !lookup_insert_eq in Hsame.
  assert (forall a b : string, Some a = Some b -> a = b) as Hsome
    by (intros a b [= ->]; reflexivity).
  apply Hsome in Hsame.
  change (Json.dumps [("description", description s1);
                      ("language", language s1);
                      ("timestamp", timestamp s1);
                      ("filename",
                        path_join (output_dir self1)
                          (stem1 +:+ "." +:+
                           (if String.eqb (language s1) "python"
                            then "py" else "cs")))]
          = Json.dumps [("description", description s2);
                        ("language", language s2);
                        ("timestamp", timestamp s2);
                        ("filename",
                          path_join (output_dir self2)
                            (stem2 +:+ "." +:+
                             (if String.eqb (language s2) "python"
                              then "py" else "cs")))]) in Hsame.
  apply dumps_inj in Hsame.
  injection Hsame as H1 H2 H3 H4. auto.
Qed.

Lemma sidecar_determines_strategy_witness :
  exists path w',
    save_strategy Sample.quiet Sample.offline
      {| code := "x = 1"; description := "say " +:+ dq +:+ "hi" +:+ dq +:+ nl;
         language := "python"; timestamp := "t" |}
      "strategy_1" Sample.empty_world = (Returns path, w')
    /\ (description
          {| code := "x = 1"; description := "say " +:+ dq +:+ "hi" +:+ dq +:+ nl;
             language := "python"; timestamp := "t" |}
        = description
            {| code := "y = 2"; description := "say " +:+ dq +:+ "hi" +:+ dq +:+ nl;
               language := "python"; timestamp := "t" |}
        /\ language
             {| code := "x = 1"; description := "say " +:+ dq +:+ "hi" +:+ dq +:+ nl;
                language := "python"; timestamp := "t" |}
           = language
               {| code := "y = 2"; description := "say " +:+ dq +:+ "hi" +:+ dq +:+ nl;
                  language := "python"; timestamp := "t" |}
        /\ timestamp
             {| code := "x = 1"; description := "say " +:+ dq +:+ "hi" +:+ dq +:+ nl;
                language := "python"; timestamp := "t" |}
           = timestamp
               {| code := "y = 2"; description := "say " +:+ dq +:+ "hi" +:+ dq +:+ nl;
                  language := "python"; timestamp := "t" |}
        /\ path = path).
Proof.
  eexists; eexists.
  assert (E1 : save_strategy Sample.quiet Sample.offline
                 {| code := "x = 1";
                    description := "say " +:+ dq +:+ "hi" +:+ dq +:+ nl;
                    language := "python"; timestamp := "t" |}
                 "strategy_1" Sample.empty_world
               = (Returns "/app/generated/strategy_1.py",
                  snd (save_strategy Sample.quiet Sample.offline
                         {| code := "x = 1";
                            description := "say " +:+ dq +:+ "hi" +:+ dq +:+ nl;
                            language := "python"; timestamp := "t" |}
                         "strategy_1" Sample.empty_world)))
    by reflexivity.
  assert (E2 : save_strategy Sample.quiet Sample.offline
                 {| code := "y = 2";
                    description := "say " +:+ dq +:+ "hi" +:+ dq +:+ nl;
                    language := "python"; timestamp := "t" |}
                 "strategy_1" (tick Sample.empty_world)
               = (Returns "/app/generated/strategy_1.py",
                  snd (save_strategy Sample.quiet Sample.offline
                         {| code := "y = 2";
                            description := "say " +:+ dq +:+ "hi" +:+ dq +:+ nl;
                            language := "python"; timestamp := "t" |}
                         "strategy_1" (tick Sample.empty_world))))
    by reflexivity.
  split; [exact E1|].
  refine (sidecar_determines_strategy Sample.quiet Sample.quiet
            Sample.offline Sample.offline _ _ "strategy_1" "strategy_1" _ _ _ _ _ _
            quiet_storage_accepts quiet_storage_accepts E1 E2 _).
  vm_compute. reflexivity.
Defined.

(** ** The text of the sidecar *)

Section SidecarText.

Lemma all_chars_app (p : ascii -> bool) (a b : string) :
  all_chars p (a +:+ b) = all_chars p a && all_chars p b.
Proof.
  induction a as [|x a IH]; [reflexivity|].
  change (String x a +:+ b) with (String x (a +:+ b)).
  cbn [all_chars]. rewrite IH. apply andb_assoc.
Qed.

Lemma count_char_app (c : ascii) (a b : string) :
  count_char c (a +:+ b) = (count_char c a + count_char c b)%nat.
Proof.
  induction a as [|x a IH]; [reflexivity|].
  change (String x a +:+ b) with (String x (a +:+ b)).
  cbn [count_char]. rewrite IH. lia.
Qed.

Lemma printable_no_linefeed (s : string) :
  all_chars printable s = true -> count_char linefeed s = O.
Proof.
  induction s as [|x s IH]; [reflexivity|].
  cbn [all_chars count_char]. intros H. apply andb_true_iff in H as [Hx Hs].
  rewrite (IH Hs).
  destruct (Ascii.eqb_spec x linefeed) as [->|]; [discriminate | reflexivity].
Qed.

Lemma printable_weaken (s : string) :
  all_chars printable s = true -> all_chars printable_or_linefeed s = true.
Proof.
  induction s as [|x s IH]; [reflexivity|].
  cbn [all_chars]. intros H. apply andb_true_iff in H as [Hx Hs].
  unfold printable_or_linefeed at 1. rewrite Hx, (IH Hs). reflexivity.
Qed.

(** Every escape sequence is made of printable characters. *)
Lemma escape_char_printable (c : ascii) :
  all_chars printable (Json.escape_char c) = true.
Proof. destruct c as [[|] [|] [|] [|] [|] [|] [|] [|]]; reflexivity. Qed.

Lemma escape_printable (s : string) : all_chars printable (Json.escape s) = true.
Proof.
  induction s as [|c s IH]; [reflexivity|].
  cbn [Json.escape]. rewrite all_chars_app, escape_char_printable, IH.
  reflexivity.
Qed.

Lemma member_printable (kv : string * string) :
  all_chars printable (Json.member kv) = true.
Proof.
  unfold Json.member, Json.quoted.
  rewrite !all_chars_app, !escape_printable. reflexivity.
Qed.

(** The members, one per line: printable but for the line feeds between
    them, one less than there are members. *)
Lemma members_text (x : string * string) (d : list (string * string)) :
  all_chars printable_or_linefeed (join ("," +:+ nl) (map Json.member (x :: d)))
  = true
  /\ count_char linefeed (join ("," +:+ nl) (map Json.member (x :: d)))
     = List.length d.
Proof.
  revert x. induction d as [|y d IH]; intros x.
  - cbn [map join List.length].
    split; [apply printable_weaken, member_printable
           |apply printable_no_linefeed, member_printable].
  - destruct (IH y) as [Hall Hcount].
    change (join ("," +:+ nl) (map Json.member (x :: y :: d)))
      with (Json.member x +:+ ("," +:+ nl)
            +:+ join ("," +:+ nl) (map Json.member (y :: d))).
    rewrite !all_chars_app, !count_char_app, Hall, Hcount.
    rewrite (printable_weaken _ (member_printable x)).
    rewrite (printable_no_linefeed _ (member_printable x)).
    split; reflexivity.
Qed.

Lemma dumps_text (x : string * string) (d : list (string * string)) :
  all_chars printable_or_linefeed (Json.dumps (x :: d)) = true
  /\ count_char linefeed (Json.dumps (x :: d)) = S (S (List.length d)).
Proof.
  destruct (members_text x d) as [Hall Hcount].
  unfold Json.dumps.
  rewrite !all_chars_app, !count_char_app, Hall, Hcount.
  split; [reflexivity|].
  change (count_char linefeed "{") with 0%nat.
  change (count_char linefeed nl) with 1%nat.
  change (count_char linefeed "}") with 0%nat. lia.
Qed.

End SidecarText.

(** X17: the sidecar is plain text of six lines, whatever was saved. On
    a storage that accepts the writes, the sidecar [save_strategy] leaves is
    made of printable ASCII characters and line feeds only, and it has exactly
    five line feeds: quotes, backslashes, line breaks, control characters and
    characters beyond ASCII in the description, the language, the timestamp
    or the path are all written as escape sequences. *)
Theorem sidecar_is_six_lines_of_ascii
  (env : Env) (self : StrategyGenerator)
  (strategy : Strategy) (filename : string) (w : World) :
  storage_accepts env ->
  exists path w' text,
    save_strategy env self strategy filename w = (Returns path, w')
    /\ files w' !! path_join (output_dir self) (filename +:+ ".json") = Some text
    /\ all_chars printable_or_linefeed text = true
    /\ count_char linefeed text = 5%nat.
Proof.
  intros Hok. eexists; eexists; eexists.
  split; [apply save_strategy_run; apply Hok|].
  cbn [files]. split; [apply lookup_insert_eq|].
  apply dumps_text.
Qed.

Lemma sidecar_is_six_lines_of_ascii_witness :
  exists path w' text,
    save_strategy Sample.quiet Sample.offline
      {| code := "x = 1";
         description := "two" +:+ nl +:+ "lines, a " +:+ dq
                        +:+ String (ascii_of_nat 233) "";
         language := "python"; timestamp := "t" |}
      "strategy_1" Sample.empty_world = (Returns path, w')
    /\ files w' !! path_join (output_dir Sample.offline) ("strategy_1" +:+ ".json")
       = Some text
    /\ all_chars printable_or_linefeed text = true
    /\ count_char linefeed text = 5%nat.
Proof.
  apply (sidecar_is_six_lines_of_ascii Sample.quiet Sample.offline
           {| code := "x = 1";
              description := "two" +:+ nl +:+ "lines, a " +:+ dq
                             +:+ String (ascii_of_nat 233) "";
              language := "python"; timestamp := "t" |}
           "strategy_1" Sample.empty_world quiet_storage_accepts).
Defined.

(** ** The warnings of the python branch *)

(** X18: the warnings of a python report, in full. They are "Missing OnData
    method" when the source has no [def OnData(], followed by "Linting issues
    found" exactly when the scratch file was written and pylint then ran to a
    non-zero return code. A refused or broken write of the scratch file, a
    missing pylint and a pylint that times out all give no lint warning,
    whatever pylint would have said about the source. *)
Theorem warnings_of_python_report
  (env : Env) (self : StrategyGenerator) (code : string) (w : World) :
  exists v w',
    validate_strategy env self code "python" w = (Returns v, w')
    /\ warnings v
       = ((if contains "def OnData(" code then [] else ["Missing OnData method"])
          ++ (if lint_warns env self w code then ["Linting issues found"] else []))%list
    /\ (lint_warns env self w code = true
        <-> storage env (time w) (temp_file self) code = Written
            /\ exists returncode,
                 pylint env (S (time w)) (Some code) = ToolExit returncode
                 /\ returncode <> 0).
Proof.
  destruct (try_pylint_run env self code (python_checks code fresh_results) w)
    as (w' & E & _).
  eexists; exists w'. split; [exact E|]. split.
  - destruct (lint_warns env self w code);
      cbn [append_warning warnings]; rewrite python_checks_warnings;
      destruct (contains "def OnData(" code); reflexivity.
  - unfold lint_warns.
    destruct (storage env (time w) (temp_file self) code);
      [|split; [discriminate | intros [? _]; discriminate]
       |split; [discriminate | intros [? _]; discriminate]].
    destruct (pylint env (S (time w)) (Some code)) as [| |rc].
    + split; [discriminate | intros [_ (rc & ? & _)]; discriminate].
    + split; [discriminate | intros [_ (rc & ? & _)]; discriminate].
    + split.
      * intros H. split; [reflexivity|]. exists rc. split; [reflexivity|].
        apply negb_true_iff, Z.eqb_neq in H. exact H.
      * intros [_ (rc' & [= <-] & Hne)]. apply negb_true_iff, Z.eqb_neq, Hne.
Qed.

(** ** The constructor *)


